(** * Patch builder for charts: a shallow embedding of
      [metadata-ingestion/src/datahub/specific/chart.py]

    The Python class [ChartPatchBuilder] is a fluent builder: every mutation
    method appends patch operations to the accumulator of the builder object
    and returns that same object.  Builders are mutable Python objects that the
    sub-document helpers point back to, so the model keeps an explicit store of
    objects addressed by references, and every method is a computation in a
    state-and-exception monad over that store. *)

From Stdlib Require Import String Ascii ZArith List Lia Bool.
From stdpp Require Import base list strings.

Open Scope string_scope.
Open Scope Z_scope.

(** ** Identifiers *)

Module Urn.

(** Modelled from the spec: the identifier collaborator ([Urn] of
    [datahub.utilities.urns.urn], absent from the sources).  An identifier
    is [urn:li:<type-qualifier>:<id>]; [create_from_string] is the spec's
    [parse], [get_type] its [typeQualifier], [to_string] (Python [str]) its
    [toString]. *)
Record t := mk { entity_type : string; entity_id : string }.

Definition LI_DOMAIN : string := "urn:li:".

(** Modelled from the spec: the identifier's [toString], Python's [str] on a
    [Urn]. *)
Definition to_string (u : t) : string :=
  LI_DOMAIN +:+ entity_type u +:+ ":" +:+ entity_id u.

(** Modelled from the spec: a step of [parse]; [split_colon s] cuts [s] at
    its first colon. *)
Fixpoint split_colon (s : string) : option (string * string) :=
  match s with
  | EmptyString => None
  | String c s' =>
      if Ascii.eqb c ":" then Some (EmptyString, s')
      else match split_colon s' with
           | Some (ty, rest) => Some (String c ty, rest)
           | None => None
           end
  end.

(** Modelled from the spec: a step of [parse]; [drop_prefix p s] is what
    follows [p] in [s]. *)
Fixpoint drop_prefix (p s : string) : option string :=
  match p, s with
  | EmptyString, _ => Some s
  | String a p', String b s' =>
      if Ascii.eqb a b then drop_prefix p' s' else None
  | String _ _, EmptyString => None
  end.

(** Modelled from the spec: the identifier's [parse], the inverse of
    [to_string]; [None] stands for its [MalformedIdentifierError]. *)
Definition create_from_string (s : string) : option t :=
  match drop_prefix LI_DOMAIN s with
  | None => None
  | Some body =>
      match split_colon body with
      | Some (ty, rest) =>
          if (String.eqb ty "" || String.eqb rest "")%bool then None
          else Some (mk ty rest)
      | None => None
      end
  end.

(** Modelled from the spec: the identifier's [typeQualifier]. *)
Definition get_type (u : t) : string := entity_type u.

End Urn.

Module UrnEncoder.

(** The urn library ([datahub.utilities.urns]) is not in the sources and
    the spec does not describe it.  The model keeps what its encoder does
    to a name: the characters reserved in identifiers, the comma, the two
    parentheses and the unit separator (the bytes 226, 144, 159 of its
    UTF-8 form), are percent-encoded, every other character stays. *)
Fixpoint encode_string (s : string) : string :=
  match s with
  | EmptyString => EmptyString
  | String c s' =>
      if Ascii.eqb c "," then "%2C" +:+ encode_string s'
      else if Ascii.eqb c "(" then "%28" +:+ encode_string s'
      else if Ascii.eqb c ")" then "%29" +:+ encode_string s'
      else
        match s' with
        | String d (String e s'') =>
            if (Ascii.eqb c "226" && Ascii.eqb d "144" && Ascii.eqb e "159")%bool
            then "%E2%90%9F" +:+ encode_string s''
            else String c (encode_string s')
        | _ => String c (encode_string s')
        end
  end.

(** [unit_separator_at s]: the unit separator is the first character of
    [s]. *)
Definition unit_separator_at (s : string) : bool :=
  match s with
  | String c (String d (String e _)) =>
      (Ascii.eqb c "226" && Ascii.eqb d "144" && Ascii.eqb e "159")%bool
  | _ => false
  end.

Fixpoint contains_reserved_char (s : string) : bool :=
  match s with
  | EmptyString => false
  | String c s' =>
      (Ascii.eqb c "," || Ascii.eqb c "(" || Ascii.eqb c ")"
       || unit_separator_at s || contains_reserved_char s')%bool
  end.

End UrnEncoder.

Module TagUrn.

Definition ENTITY_TYPE : string := "tag".

(** [TagUrn.create_from_id] belongs to the urn library, like the encoder
    above, and is modelled on what the library's tag constructor does with a
    name.  A name that starts with [urn:li:] has to be a tag identifier
    whose name holds no reserved character, and is taken as that
    identifier; any other name is encoded; an empty name is refused.
    [None] stands for the library's [InvalidUrnError]. *)
Definition create_from_id (tag_id : string) : option Urn.t :=
  if String.prefix Urn.LI_DOMAIN tag_id then
    match Urn.create_from_string tag_id with
    | Some u =>
        if (String.eqb (Urn.get_type u) ENTITY_TYPE
            && negb (UrnEncoder.contains_reserved_char (Urn.entity_id u)))%bool
        then Some u else None
    | None => None
    end
  else
    let name := UrnEncoder.encode_string tag_id in
    if String.eqb name "" then None else Some (Urn.mk ENTITY_TYPE name).

End TagUrn.

(** ** Schema classes the builder handles

    The classes of [datahub.metadata.schema_classes] are generated code that
    is not in the sources; of each the model keeps the attributes that
    [chart.py] reads or writes. *)

(** Modelled from the spec: the [Timestamp{time, actor}] of the
    audit-timestamp collaborator. *)
Record AuditStamp := { time : Z; actor : string }.

Record Edge :=
  { destinationUrn : string;
    created : option AuditStamp;
    lastModified : option AuditStamp }.

Record Tag := { tag : string }.

Record Term := { urn : string }.

(** Modelled from the spec: an ownership grant, keyed by the owner's
    identifier and discriminated by the ownership type. *)
Record Owner := { owner : string; type : string }.

Record ChangeAuditStampsClass :=
  { cas_created : AuditStamp; cas_lastModified : AuditStamp }.

(** Opaque payloads carried from the constructor to the patch request. *)
Definition SystemMetadataClass := string.
Definition KafkaAuditHeaderClass := string.

(** Names of the aspects, the [ASPECT_NAME] attributes of the generated
    schema classes.  Their values are not in the sources; the names of the
    DataHub aspects are taken.  The properties below use that they are not
    empty and differ from each other. *)
Definition ChartInfo_ASPECT_NAME : string := "chartInfo".
Definition GlobalTags_ASPECT_NAME : string := "globalTags".
Definition GlossaryTerms_ASPECT_NAME : string := "glossaryTerms".
Definition Ownership_ASPECT_NAME : string := "ownership".

(** ** Patch operations *)

(** The payloads [chart.py] hands to [_add_patch]; Python passes them
    untyped.  The empty marker [{}] of the remove operations is the empty
    dictionary. *)
Inductive Value :=
| VStr (s : string)
| VInt (z : Z)
| VTag (t : Tag)
| VTerm (t : Term)
| VOwner (o : Owner)
| VOwners (os : list Owner)
| VEdges (es : list Edge)
| VDict (kvs : list (string * string))
| VAuditStamps (s : ChangeAuditStampsClass).

Definition empty_marker : Value := VDict [].

(** The operation kinds of the spec; [chart.py] writes them as the string
    literals ["add"] and ["remove"]. *)
Inductive Op := OpAdd | OpRemove | OpReplace.

Record Patch :=
  { aspectName : string; op : Op; path : string; value : Value }.

(** What [build] hands to the wire layer. *)
Record PatchRequest :=
  { entityId : string;
    aspectPatches : list (string * list Patch);
    systemMetadata : option SystemMetadataClass;
    auditHeader : option KafkaAuditHeaderClass }.

(** ** The object store *)

(** A reference to a builder object. *)
Abbreviation loc := nat.

(** Modelled from the spec: the state of a sub-document helper, a
    back-reference to the builder that owns it and, for the custom-properties
    helper, the name of the aspect it manages ([chart.py] constructs them as
    [CustomPropertiesPatchHelper(self, ChartInfo.ASPECT_NAME)] and
    [OwnershipPatchHelper(self)]). *)
Record CustomPropertiesPatchHelper :=
  { cp_parent : loc; cp_aspect_name : string }.

(** Modelled from the spec: the ownership helper, bound to the ownership
    aspect, keeps the back-reference only. *)
Record OwnershipPatchHelper := { own_parent : loc }.

(** Modelled from the spec: the attributes [MetadataPatchProposal.__init__]
    sets, the entity identifier, the optional system metadata and audit
    header, and the accumulator [patches], the operations in the order of
    their insertion. *)
Record MetadataPatchProposal :=
  { mpp_urn : string;
    system_metadata : option SystemMetadataClass;
    audit_header : option KafkaAuditHeaderClass;
    patches : list Patch }.

(** A [ChartPatchBuilder] object: the attributes of its base class and the
    two helpers its own [__init__] adds. *)
Record ChartPatchBuilder :=
  { base : MetadataPatchProposal;
    custom_properties_patch_helper : CustomPropertiesPatchHelper;
    ownership_patch_helper : OwnershipPatchHelper }.

(** The world a call runs in: the builder objects, and what the
    audit-timestamp collaborator reads (the current time and the acting
    identity). *)
Record World :=
  { heap : list ChartPatchBuilder;
    clock : Z;
    acting_identity : string }.

Definition set_heap (h : list ChartPatchBuilder) (w : World) : World :=
  {| heap := h; clock := clock w; acting_identity := acting_identity w |}.

Definition set_patches (ps : list Patch) (b : ChartPatchBuilder)
  : ChartPatchBuilder :=
  {| base := {| mpp_urn := mpp_urn (base b);
                system_metadata := system_metadata (base b);
                audit_header := audit_header (base b);
                patches := ps |};
     custom_properties_patch_helper := custom_properties_patch_helper b;
     ownership_patch_helper := ownership_patch_helper b |}.

(** ** Exceptions and the monad of method calls *)

(** Modelled from the spec: the failures of the spec's taxonomy, raised by
    the absent base class and helpers.  [AssertionError] is the one failure
    [chart.py] raises itself, by a failed [assert]; [DanglingReference]
    belongs to the model only (a reference to no object, which Python cannot
    produce). *)
Inductive Error :=
| InvalidIdentifierError
| InvalidUrnTypeError (context : string)
| AssertionError (msg : string)
| InvalidPathError
| InvalidArgumentError
| DanglingReference.

(** The spec calls the failed assertion of a required scalar
    [RequiredFieldError]. *)
Definition RequiredFieldError : string -> Error := AssertionError.

Inductive result (A : Type) :=
| Ok (a : A)
| Raise (e : Error).
Arguments Ok {A} a.
Arguments Raise {A} e.

(** A call either returns a value or raises, and leaves a world behind in
    both cases. *)
Definition M (A : Type) : Type := World -> result A * World.

Definition ret {A} (a : A) : M A := fun w => (Ok a, w).

Definition raise {A} (e : Error) : M A := fun w => (Raise e, w).

Definition bind {A B} (m : M A) (k : A -> M B) : M B :=
  fun w =>
    match m w with
    | (Ok a, w') => k a w'
    | (Raise e, w') => (Raise e, w')
    end.

Definition get_world : M World := fun w => (Ok w, w).

Definition put_heap (h : list ChartPatchBuilder) : M unit :=
  fun w => (Ok tt, set_heap h w).

Declare Scope py_scope.
Delimit Scope py_scope with py.
Notation "x <- m ;; k" := (bind m (fun x => k))
  (at level 100, m at next level, right associativity) : py_scope.
Notation "m ;;; k" := (bind m (fun _ => k))
  (at level 100, right associativity) : py_scope.
Open Scope py_scope.

(** [deref self] reads the object [self] points to. *)
Definition deref (self : loc) : M ChartPatchBuilder :=
  w <- get_world ;;
  match heap w !! self with
  | Some b => ret b
  | None => raise DanglingReference
  end.

(** ** The shared engine ([datahub.emitter.mcp_patch_builder]) *)

Module mcp_patch_builder.

(** Modelled from the spec: the Path Segment Codec, [quote] of the base
    class [MetadataPatchProposal] (absent from the sources).  Segments are
    joined by [/], so the separator and the escape character are the two
    characters the codec rewrites, in the way of JSON Pointer: [~] becomes
    [~0] and [/] becomes [~1]; the empty segment is valid and quotes to
    itself. *)
Fixpoint quote (s : string) : string :=
  match s with
  | EmptyString => EmptyString
  | String c s' =>
      if Ascii.eqb c "~" then String "~" (String "0" (quote s'))
      else if Ascii.eqb c "/" then String "~" (String "1" (quote s'))
      else String c (quote s')
  end.

(** Modelled from the spec: what the receiving system does to reverse the
    escaping. *)
Fixpoint unquote (s : string) : string :=
  match s with
  | EmptyString => EmptyString
  | String c s' =>
      if Ascii.eqb c "~" then
        match s' with
        | String d s'' =>
            if Ascii.eqb d "0" then String "~" (unquote s'')
            else if Ascii.eqb d "1" then String "/" (unquote s'')
            else String c (unquote s')
        | EmptyString => String c EmptyString
        end
      else String c (unquote s')
  end.

(** Modelled from the spec: [MetadataPatchProposal.__init__] (absent from
    the sources).  The identifier has to parse and to carry the
    type-qualifier of the entity kind of the builder subtype, [kind]; the
    accumulator starts empty. *)
Definition __init__ (kind : string) (urn : string)
    (system_metadata : option SystemMetadataClass)
    (audit_header : option KafkaAuditHeaderClass)
  : M MetadataPatchProposal :=
  match Urn.create_from_string urn with
  | None => raise InvalidIdentifierError
  | Some u =>
      if String.eqb (Urn.get_type u) kind then
        ret {| mpp_urn := urn;
               system_metadata := system_metadata;
               audit_header := audit_header;
               patches := [] |}
      else raise InvalidIdentifierError
  end.

(** Modelled from the spec: the accumulator's [append],
    [MetadataPatchProposal._add_patch] (absent from the sources).  The
    value is not looked at; an empty path or aspect name is refused; the
    operation goes to the end of the accumulator of [self]. *)
Definition _add_patch (self : loc) (aspect_name : string) (op : Op)
    (path : string) (value : Value) : M unit :=
  if (String.eqb path "" || String.eqb aspect_name "")%bool then
    raise InvalidPathError
  else
    b <- deref self ;;
    w <- get_world ;;
    put_heap
      (<[self := set_patches
                   (patches (base b) ++
                      [{| aspectName := aspect_name; op := op;
                          path := path; value := value |}]) b]> (heap w)).

(** Modelled from the spec: the audit-timestamp collaborator,
    [MetadataPatchProposal._mint_auditstamp] (absent from the sources): the
    current time and the acting identity, read without any effect. *)
Definition _mint_auditstamp : M AuditStamp :=
  w <- get_world ;;
  ret {| time := clock w; actor := acting_identity w |}.

(** Modelled from the spec: [MetadataPatchProposal._ensure_urn_type]
    (absent from the sources).  Each edge's target has to be an identifier
    whose type-qualifier is [entity_type]; a target that is no identifier
    fails with [InvalidIdentifierError], one of another kind with
    [InvalidUrnTypeError]. *)
Fixpoint _ensure_urn_type (entity_type : string) (edges : list Edge)
    (context : string) : M unit :=
  match edges with
  | [] => ret tt
  | e :: edges' =>
      match Urn.create_from_string (destinationUrn e) with
      | None => raise InvalidIdentifierError
      | Some u =>
          if String.eqb (Urn.get_type u) entity_type then
            _ensure_urn_type entity_type edges' context
          else raise (InvalidUrnTypeError context)
      end
  end.

(** Modelled from the spec: a step of [materialize]; [group_insert p g]
    files [p] under its aspect, at the end of the aspect's operations when
    the aspect is known, and as a new last aspect otherwise. *)
Fixpoint group_insert (p : Patch) (g : list (string * list Patch))
  : list (string * list Patch) :=
  match g with
  | [] => [(aspectName p, [p])]
  | (a, ps) :: g' =>
      if String.eqb a (aspectName p) then (a, (ps ++ [p])%list) :: g'
      else (a, ps) :: group_insert p g'
  end.

(** Modelled from the spec: the accumulator's [materialize]: the
    operations grouped by aspect, the aspects in the order of their first
    operation and the operations of an aspect in the order of their
    insertion. *)
Definition materialize (ps : list Patch) : list (string * list Patch) :=
  fold_left (fun g p => group_insert p g) ps [].

(** Modelled from the spec: [MetadataPatchProposal.build] (absent from the
    sources): a read of the builder, which stays as it is. *)
Definition build (self : loc) : M PatchRequest :=
  b <- deref self ;;
  ret {| entityId := mpp_urn (base b);
         aspectPatches := materialize (patches (base b));
         systemMetadata := system_metadata (base b);
         auditHeader := audit_header (base b) |}.

End mcp_patch_builder.

(** ** The sub-document helpers *)

Module custom_properties.

Import mcp_patch_builder.

(** Modelled from the spec: [CustomPropertiesPatchHelper.add_property]
    (absent from the sources), the helper's [addEntry]: an [add] at
    [/customProperties/quote(key)] with the value.  The key of a property
    is any string; the empty string is a key of the dictionary like any
    other, so no key is structurally empty and none is refused. *)
Definition add_property (self : CustomPropertiesPatchHelper)
    (key value : string) : M unit :=
  _add_patch (cp_parent self) (cp_aspect_name self) OpAdd
    ("/customProperties/" +:+ quote key) (VStr value).

(** Modelled from the spec: [CustomPropertiesPatchHelper.remove_property]
    (absent from the sources), the helper's [removeEntry]: a [remove] at
    [/customProperties/quote(key)] with the empty marker. *)
Definition remove_property (self : CustomPropertiesPatchHelper)
    (key : string) : M unit :=
  _add_patch (cp_parent self) (cp_aspect_name self) OpRemove
    ("/customProperties/" +:+ quote key) empty_marker.

End custom_properties.

Module ownership.

Import mcp_patch_builder.

(** Modelled from the spec: [OwnershipPatchHelper.add_owner] (absent from
    the sources), the helper's [addEntry], keyed by the owner's
    identifier. *)
Definition add_owner (self : OwnershipPatchHelper) (o : Owner) : M unit :=
  if String.eqb (owner o) "" then raise InvalidArgumentError
  else
    _add_patch (own_parent self) Ownership_ASPECT_NAME OpAdd
      ("/owners/" +:+ quote (owner o)) (VOwner o).

(** Modelled from the spec: [OwnershipPatchHelper.remove_owner] (absent
    from the sources), the helper's [removeEntry]; with an ownership type
    the path names the (owner, type) pair. *)
Definition remove_owner (self : OwnershipPatchHelper) (o : string)
    (owner_type : option string) : M unit :=
  if String.eqb o "" then raise InvalidArgumentError
  else
    _add_patch (own_parent self) Ownership_ASPECT_NAME OpRemove
      ("/owners/" +:+ quote o +:+
         match owner_type with
         | Some ty => "/" +:+ quote ty
         | None => ""
         end)
      empty_marker.

(** Modelled from the spec: [OwnershipPatchHelper.set_owners] (absent from
    the sources), the helper's [setAll]: one [add] at the bare field with
    the whole collection. *)
Definition set_owners (self : OwnershipPatchHelper) (owners : list Owner)
  : M unit :=
  _add_patch (own_parent self) Ownership_ASPECT_NAME OpAdd
    "/owners" (VOwners owners).

End ownership.

(** ** The chart builder ([datahub.specific.chart]) *)

Module chart.

Import mcp_patch_builder.

(** [Union[str, Urn]], and Python's [str] on it. *)
Inductive StrOrUrn :=
| IsStr (s : string)
| IsUrn (u : Urn.t).

Definition str (x : StrOrUrn) : string :=
  match x with
  | IsStr s => s
  | IsUrn u => Urn.to_string u
  end.

(** [Union[Edge, Urn, str]]: the two branches of [isinstance]. *)
Inductive EdgeOrRef :=
| IsEdge (e : Edge)
| IsRef (r : StrOrUrn).

(** The entity kind of this builder subtype. *)
Definition ENTITY_TYPE : string := "chart".

(** [ChartPatchBuilder(urn, system_metadata, audit_header)]: the base class
    sets its attributes (it learns the subtype from [self], here from
    [ENTITY_TYPE]), then the two helpers are made with a back-reference to
    the new object, which takes the first free reference. *)
Definition __init__ (urn : string)
    (system_metadata : option SystemMetadataClass)
    (audit_header : option KafkaAuditHeaderClass) : M loc :=
  b <- mcp_patch_builder.__init__ ENTITY_TYPE urn system_metadata
         audit_header ;;
  w <- get_world ;;
  let self := length (heap w) in
  put_heap
    (heap w ++
       [{| base := b;
           custom_properties_patch_helper :=
             {| cp_parent := self;
                cp_aspect_name := ChartInfo_ASPECT_NAME |};
           ownership_patch_helper := {| own_parent := self |} |}])%list ;;;
  ret self.

Definition add_owner (self : loc) (o : Owner) : M loc :=
  b <- deref self ;;
  ownership.add_owner (ownership_patch_helper b) o ;;;
  ret self.

Definition remove_owner (self : loc) (o : string)
    (owner_type : option string) : M loc :=
  b <- deref self ;;
  ownership.remove_owner (ownership_patch_helper b) o owner_type ;;;
  ret self.

Definition set_owners (self : loc) (owners : list Owner) : M loc :=
  b <- deref self ;;
  ownership.set_owners (ownership_patch_helper b) owners ;;;
  ret self.

(** The first half of [add_input_edge]: the target's identifier and the
    edge, taken as it is or made with two fresh audit stamps. *)
Definition input_urn_and_edge (input : EdgeOrRef) : M (string * Edge) :=
  match input with
  | IsEdge e => ret (destinationUrn e, e)
  | IsRef r =>
      let input_urn := str r in
      c <- _mint_auditstamp ;;
      m <- _mint_auditstamp ;;
      ret (input_urn,
           {| destinationUrn := input_urn;
              created := Some c;
              lastModified := Some m |})
  end.

Definition add_input_edge (self : loc) (input : EdgeOrRef) : M loc :=
  ue <- input_urn_and_edge input ;;
  let input_urn := fst ue in
  let input_edge := snd ue in
  _ensure_urn_type "dataset" [input_edge] "add_dataset" ;;;
  _add_patch self ChartInfo_ASPECT_NAME OpAdd
    ("/inputEdges/" +:+ quote input_urn) (VStr input_urn) ;;;
  ret self.

Definition remove_input_edge (self : loc) (input : StrOrUrn) : M loc :=
  _add_patch self ChartInfo_ASPECT_NAME OpRemove
    ("/inputEdges/" +:+ quote (str input)) empty_marker ;;;
  ret self.

Definition set_input_edges (self : loc) (inputs : list Edge) : M loc :=
  _add_patch self ChartInfo_ASPECT_NAME OpAdd "/inputEdges"
    (VEdges inputs) ;;;
  ret self.

Definition add_tag (self : loc) (t : Tag) : M loc :=
  _add_patch self GlobalTags_ASPECT_NAME OpAdd ("/tags/" +:+ tag t)
    (VTag t) ;;;
  ret self.

(** A name the tag constructor refuses makes [remove_tag] raise the
    constructor's error, which is the [InvalidIdentifierError] of the spec's
    taxonomy. *)
Definition remove_tag (self : loc) (t : StrOrUrn) : M loc :=
  t <- match t with
       | IsStr s =>
           if negb (String.prefix "urn:li:tag:" s) then
             match TagUrn.create_from_id s with
             | Some u => ret (IsUrn u)
             | None => raise InvalidIdentifierError
             end
           else ret t
       | IsUrn _ => ret t
       end ;;
  _add_patch self GlobalTags_ASPECT_NAME OpRemove ("/tags/" +:+ str t)
    empty_marker ;;;
  ret self.

Definition add_term (self : loc) (t : Term) : M loc :=
  _add_patch self GlossaryTerms_ASPECT_NAME OpAdd ("/terms/" +:+ urn t)
    (VTerm t) ;;;
  ret self.

Definition remove_term (self : loc) (t : StrOrUrn) : M loc :=
  let t :=
    match t with
    | IsStr s =>
        if negb (String.prefix "urn:li:glossaryTerm:" s)
        then IsStr ("urn:li:glossaryTerm:" +:+ s) else t
    | IsUrn _ => t
    end in
  _add_patch self GlossaryTerms_ASPECT_NAME OpRemove ("/terms/" +:+ str t)
    empty_marker ;;;
  ret self.

Definition set_custom_properties (self : loc)
    (custom_properties : list (string * string)) : M loc :=
  _add_patch self ChartInfo_ASPECT_NAME OpAdd "/customProperties"
    (VDict custom_properties) ;;;
  ret self.

Definition add_custom_property (self : loc) (key value : string) : M loc :=
  b <- deref self ;;
  custom_properties.add_property (custom_properties_patch_helper b)
    key value ;;;
  ret self.

Definition remove_custom_property (self : loc) (key : string) : M loc :=
  b <- deref self ;;
  custom_properties.remove_property (custom_properties_patch_helper b)
    key ;;;
  ret self.

Definition set_title (self : loc) (title : string) : M loc :=
  if String.eqb title "" then
    raise (AssertionError "ChartInfo title should not be None")
  else
    _add_patch self ChartInfo_ASPECT_NAME OpAdd "/title" (VStr title) ;;;
    ret self.

Definition set_description (self : loc) (description : string) : M loc :=
  if String.eqb description "" then
    raise (AssertionError "DashboardInfo description should not be None")
  else
    _add_patch self ChartInfo_ASPECT_NAME OpAdd "/description"
      (VStr description) ;;;
    ret self.

Definition set_last_refreshed (self : loc) (last_refreshed : option Z)
  : M loc :=
  match last_refreshed with
  | Some z =>
      if negb (Z.eqb z 0) then
        _add_patch self ChartInfo_ASPECT_NAME OpAdd "/lastRefreshed"
          (VInt z) ;;;
        ret self
      else ret self
  | None => ret self
  end.

Definition set_last_modified (self : loc)
    (last_modified : option ChangeAuditStampsClass) : M loc :=
  match last_modified with
  | Some s =>
      _add_patch self ChartInfo_ASPECT_NAME OpAdd "/lastModified"
        (VAuditStamps s) ;;;
      ret self
  | None => ret self
  end.

Definition set_external_url (self : loc) (external_url : option string)
  : M loc :=
  match external_url with
  | Some s =>
      if negb (String.eqb s "") then
        _add_patch self ChartInfo_ASPECT_NAME OpAdd "/externalUrl" (VStr s) ;;;
        ret self
      else ret self
  | None => ret self
  end.

Definition set_chart_url (self : loc) (dashboard_url : option string)
  : M loc :=
  match dashboard_url with
  | Some s =>
      if negb (String.eqb s "") then
        _add_patch self ChartInfo_ASPECT_NAME OpAdd "/chartUrl" (VStr s) ;;;
        ret self
      else ret self
  | None => ret self
  end.

(** [ChartTypeClass] and, below, [AccessLevelClass] are classes of string
    constants: the argument is a string or [None]. *)
Definition set_type (self : loc) (type : option string)
  : M loc :=
  match type with
  | Some s =>
      if negb (String.eqb s "") then
        _add_patch self ChartInfo_ASPECT_NAME OpAdd "/type" (VStr s) ;;;
        ret self
      else ret self
  | None => ret self
  end.

Definition set_access (self : loc) (access : option string)
  : M loc :=
  match access with
  | Some s =>
      if negb (String.eqb s "") then
        _add_patch self ChartInfo_ASPECT_NAME OpAdd "/access" (VStr s) ;;;
        ret self
      else ret self
  | None => ret self
  end.

Fixpoint add_inputs_loop (self : loc) (input_urns : list string) : M unit :=
  match input_urns with
  | [] => ret tt
  | urn :: rest =>
      _add_patch self ChartInfo_ASPECT_NAME OpAdd ("/inputs/" +:+ urn)
        (VStr urn) ;;;
      add_inputs_loop self rest
  end.

Definition add_inputs (self : loc) (input_urns : option (list string))
  : M loc :=
  match input_urns with
  | Some (urn :: rest) => add_inputs_loop self (urn :: rest) ;;; ret self
  | Some [] | None => ret self
  end.

(** A mutation call with its arguments, and its dispatch. *)
Inductive Call :=
| AddOwner (o : Owner)
| RemoveOwner (o : string) (owner_type : option string)
| SetOwners (owners : list Owner)
| AddInputEdge (input : EdgeOrRef)
| RemoveInputEdge (input : StrOrUrn)
| SetInputEdges (inputs : list Edge)
| AddTag (t : Tag)
| RemoveTag (t : StrOrUrn)
| AddTerm (t : Term)
| RemoveTerm (t : StrOrUrn)
| SetCustomProperties (custom_properties : list (string * string))
| AddCustomProperty (key value : string)
| RemoveCustomProperty (key : string)
| SetTitle (title : string)
| SetDescription (description : string)
| SetLastRefreshed (last_refreshed : option Z)
| SetLastModified (last_modified : option ChangeAuditStampsClass)
| SetExternalUrl (external_url : option string)
| SetChartUrl (dashboard_url : option string)
| SetType (type : option string)
| SetAccess (access : option string)
| AddInputs (input_urns : option (list string)).

Definition call (self : loc) (c : Call) : M loc :=
  match c with
  | AddOwner o => add_owner self o
  | RemoveOwner o ty => remove_owner self o ty
  | SetOwners os => set_owners self os
  | AddInputEdge i => add_input_edge self i
  | RemoveInputEdge i => remove_input_edge self i
  | SetInputEdges es => set_input_edges self es
  | AddTag t => add_tag self t
  | RemoveTag t => remove_tag self t
  | AddTerm t => add_term self t
  | RemoveTerm t => remove_term self t
  | SetCustomProperties kvs => set_custom_properties self kvs
  | AddCustomProperty k v => add_custom_property self k v
  | RemoveCustomProperty k => remove_custom_property self k
  | SetTitle s => set_title self s
  | SetDescription s => set_description self s
  | SetLastRefreshed z => set_last_refreshed self z
  | SetLastModified s => set_last_modified self s
  | SetExternalUrl s => set_external_url self s
  | SetChartUrl s => set_chart_url self s
  | SetType s => set_type self s
  | SetAccess s => set_access self s
  | AddInputs l => add_inputs self l
  end.

End chart.

Import mcp_patch_builder chart.

(** * The vocabulary of the properties *)

(** ** What a call leaves behind *)

(** The accumulator of the builder [self] points to. *)
Definition patches_of (w : World) (self : loc) : list Patch :=
  match heap w !! self with
  | Some b => patches (base b)
  | None => []
  end.

(** The world in which [ps] went to the end of the accumulator of [self]
    and nothing else changed. *)
Definition append_patches (self : loc) (ps : list Patch) (w : World) : World :=
  match heap w !! self with
  | Some b =>
      set_heap (<[self := set_patches (patches (base b) ++ ps)%list b]> (heap w)) w
  | None => w
  end.

(** [self] points to a chart builder as [__init__] leaves it: the helpers
    point back to it, and the custom-properties helper manages the chart
    information aspect. *)
Definition is_chart_builder (w : World) (self : loc) : bool :=
  match heap w !! self with
  | Some b =>
      Nat.eqb (cp_parent (custom_properties_patch_helper b)) self
      && String.eqb (cp_aspect_name (custom_properties_patch_helper b))
           ChartInfo_ASPECT_NAME
      && Nat.eqb (own_parent (ownership_patch_helper b)) self
  | None => false
  end.

(** The target of an input edge, as [add_input_edge] reads it. *)
Definition target_urn (input : EdgeOrRef) : string :=
  match input with
  | IsEdge e => destinationUrn e
  | IsRef r => str r
  end.

Definition mkPatch (a : string) (o : Op) (p : string) (v : Value) : Patch :=
  {| aspectName := a; op := o; path := p; value := v |}.

(** The operations of a request, aspect after aspect. *)
Definition operations (r : PatchRequest) : list Patch :=
  concat (map snd (aspectPatches r)).

(** A world with no object yet. *)
Definition empty_world : World :=
  {| heap := []; clock := 1700000000000;
     acting_identity := "urn:li:corpuser:datahub" |}.

(** A chart builder fresh from its constructor, for the examples. *)
Definition sample_world : World :=
  snd (chart.__init__ "urn:li:chart:(tool,id1)" None None empty_world).

Definition fresh_builder (self : loc) (urn : string)
    (sm : option SystemMetadataClass) (ah : option KafkaAuditHeaderClass)
  : ChartPatchBuilder :=
  {| base := {| mpp_urn := urn; system_metadata := sm; audit_header := ah;
                patches := [] |};
     custom_properties_patch_helper :=
       {| cp_parent := self; cp_aspect_name := ChartInfo_ASPECT_NAME |};
     ownership_patch_helper := {| own_parent := self |} |}.

(** The key a remove call ends up with; for [remove_tag] there is none
    when the tag constructor refuses the name. *)
Definition tag_key (t : StrOrUrn) : option string :=
  match t with
  | IsStr s =>
      if String.prefix "urn:li:tag:" s then Some s
      else option_map Urn.to_string (TagUrn.create_from_id s)
  | IsUrn u => Some (Urn.to_string u)
  end.

Definition term_key (t : StrOrUrn) : string :=
  match t with
  | IsStr s =>
      if String.prefix "urn:li:glossaryTerm:" s then s
      else "urn:li:glossaryTerm:" +:+ s
  | IsUrn u => Urn.to_string u
  end.

Definition optional_str_patch (field : string) (v : option string)
  : list Patch :=
  match v with
  | Some s =>
      if String.eqb s "" then []
      else [mkPatch ChartInfo_ASPECT_NAME OpAdd field (VStr s)]
  | None => []
  end.

(** What a call does to a chart builder, read off the methods: the error it
    raises, or the operations it appends. *)
Definition call_outcome (c : Call) : Error + list Patch :=
  match c with
  | AddOwner o =>
      if String.eqb (owner o) "" then inl InvalidArgumentError
      else inr [mkPatch Ownership_ASPECT_NAME OpAdd
                  ("/owners/" +:+ quote (owner o)) (VOwner o)]
  | RemoveOwner o ty =>
      if String.eqb o "" then inl InvalidArgumentError
      else inr [mkPatch Ownership_ASPECT_NAME OpRemove
                  ("/owners/" +:+ quote o +:+
                     match ty with
                     | Some t => "/" +:+ quote t
                     | None => ""
                     end) empty_marker]
  | SetOwners os =>
      inr [mkPatch Ownership_ASPECT_NAME OpAdd "/owners" (VOwners os)]
  | AddInputEdge i =>
      match Urn.create_from_string (target_urn i) with
      | None => inl InvalidIdentifierError
      | Some u =>
          if String.eqb (Urn.get_type u) "dataset" then
            inr [mkPatch ChartInfo_ASPECT_NAME OpAdd
                   ("/inputEdges/" +:+ quote (target_urn i))
                   (VStr (target_urn i))]
          else inl (InvalidUrnTypeError "add_dataset")
      end
  | RemoveInputEdge i =>
      inr [mkPatch ChartInfo_ASPECT_NAME OpRemove
             ("/inputEdges/" +:+ quote (str i)) empty_marker]
  | SetInputEdges es =>
      inr [mkPatch ChartInfo_ASPECT_NAME OpAdd "/inputEdges" (VEdges es)]
  | AddTag t =>
      inr [mkPatch GlobalTags_ASPECT_NAME OpAdd ("/tags/" +:+ tag t) (VTag t)]
  | RemoveTag t =>
      match tag_key t with
      | Some k =>
          inr [mkPatch GlobalTags_ASPECT_NAME OpRemove ("/tags/" +:+ k)
                 empty_marker]
      | None => inl InvalidIdentifierError
      end
  | AddTerm t =>
      inr [mkPatch GlossaryTerms_ASPECT_NAME OpAdd ("/terms/" +:+ urn t)
             (VTerm t)]
  | RemoveTerm t =>
      inr [mkPatch GlossaryTerms_ASPECT_NAME OpRemove
             ("/terms/" +:+ term_key t) empty_marker]
  | SetCustomProperties kvs =>
      inr [mkPatch ChartInfo_ASPECT_NAME OpAdd "/customProperties" (VDict kvs)]
  | AddCustomProperty k v =>
      inr [mkPatch ChartInfo_ASPECT_NAME OpAdd
             ("/customProperties/" +:+ quote k) (VStr v)]
  | RemoveCustomProperty k =>
      inr [mkPatch ChartInfo_ASPECT_NAME OpRemove
             ("/customProperties/" +:+ quote k) empty_marker]
  | SetTitle s =>
      if String.eqb s "" then
        inl (AssertionError "ChartInfo title should not be None")
      else inr [mkPatch ChartInfo_ASPECT_NAME OpAdd "/title" (VStr s)]
  | SetDescription s =>
      if String.eqb s "" then
        inl (AssertionError "DashboardInfo description should not be None")
      else inr [mkPatch ChartInfo_ASPECT_NAME OpAdd "/description" (VStr s)]
  | SetLastRefreshed v =>
      inr match v with
          | Some z =>
              if Z.eqb z 0 then []
              else [mkPatch ChartInfo_ASPECT_NAME OpAdd "/lastRefreshed" (VInt z)]
          | None => []
          end
  | SetLastModified v =>
      inr match v with
          | Some s =>
              [mkPatch ChartInfo_ASPECT_NAME OpAdd "/lastModified"
                 (VAuditStamps s)]
          | None => []
          end
  | SetExternalUrl v => inr (optional_str_patch "/externalUrl" v)
  | SetChartUrl v => inr (optional_str_patch "/chartUrl" v)
  | SetType v => inr (optional_str_patch "/type" v)
  | SetAccess v => inr (optional_str_patch "/access" v)
  | AddInputs v =>
      inr (map (fun u => mkPatch ChartInfo_ASPECT_NAME OpAdd ("/inputs/" +:+ u)
                           (VStr u))
             (default [] v))
  end.

Definition scenario : M PatchRequest :=
  b <- chart.__init__ "urn:li:chart:(tool,id1)" None None ;;
  b <- set_title b "Revenue" ;;
  b <- add_tag b {| tag := "urn:li:tag:pii" |} ;;
  b <- remove_owner b "urn:li:corpuser:alice" None ;;
  build b.

Definition scenario_title : Patch :=
  mkPatch "chartInfo" OpAdd "/title" (VStr "Revenue").
Definition scenario_tag : Patch :=
  mkPatch "globalTags" OpAdd "/tags/urn:li:tag:pii"
    (VTag {| tag := "urn:li:tag:pii" |}).
Definition scenario_owner : Patch :=
  mkPatch "ownership" OpRemove "/owners/urn:li:corpuser:alice" empty_marker.

(** [has_char c s]: the character [c] occurs in [s]. *)
Fixpoint has_char (c : ascii) (s : string) : bool :=
  match s with
  | EmptyString => false
  | String d s' => (Ascii.eqb d c || has_char c s')%bool
  end.

Definition s3_dataset : string :=
  "urn:li:dataset:(urn:li:dataPlatform:s3,bucket/key,PROD)".

Definition slash_tag : Tag := {| tag := "urn:li:tag:team/growth" |}.

Definition hive_dataset : string :=
  "urn:li:dataset:(urn:li:dataPlatform:hive,db.orders,PROD)".

Definition stamped_edge : Edge :=
  {| destinationUrn := hive_dataset;
     created := Some {| time := 1; actor := "urn:li:corpuser:alice" |};
     lastModified := Some {| time := 2; actor := "urn:li:corpuser:alice" |} |}.

Definition bare_edge : Edge :=
  {| destinationUrn := hive_dataset; created := None; lastModified := None |}.

(** ** Chains of calls and the shape of what they append *)

(** A fluent chain [b.m1(...).m2(...)]: each call runs on the reference the
    call before it returned. *)
Fixpoint chain (self : loc) (cs : list Call) : M loc :=
  match cs with
  | [] => ret self
  | c :: cs' => b <- call self c ;; chain b cs'
  end.

(** The operations of the calls of a chain, one call after the other, when
    no call of the chain raises. *)
Fixpoint chain_patches (cs : list Call) : option (list Patch) :=
  match cs with
  | [] => Some []
  | c :: cs' =>
      match call_outcome c, chain_patches cs' with
      | inr ps, Some qs => Some (ps ++ qs)%list
      | _, _ => None
      end
  end.

(** The calls whose body hands the work to a helper object. *)
Definition delegated (c : Call) : bool :=
  match c with
  | AddOwner _ | RemoveOwner _ _ | SetOwners _
  | AddCustomProperty _ _ | RemoveCustomProperty _ => true
  | _ => false
  end.

(** The calls whose body has the argument checked before it appends: the
    two asserts, the kind check of [add_input_edge], and [remove_tag] on a
    bare name, which it hands to the tag constructor of the urn library. *)
Definition checks_argument (c : Call) : bool :=
  match c with
  | SetTitle _ | SetDescription _ | AddInputEdge _ => true
  | RemoveTag (IsStr s) => negb (String.prefix "urn:li:tag:" s)
  | _ => false
  end.

(** The aspect [chart.py] files a path under: tags and glossary terms have
    an aspect of their own, every other field is chart information. *)
Definition field_aspect (p : string) : string :=
  if String.prefix "/tags/" p then GlobalTags_ASPECT_NAME
  else if String.prefix "/terms/" p then GlossaryTerms_ASPECT_NAME
  else ChartInfo_ASPECT_NAME.

(** The shape of an operation [chart.py] builds itself: an add or a remove,
    never a replace; a path from the root; the empty marker on every remove;
    the aspect of its field. *)
Definition chart_patch_shape (p : Patch) : Prop :=
  op p <> OpReplace
  /\ String.prefix "/" (path p) = true
  /\ (op p = OpRemove -> value p = empty_marker)
  /\ aspectName p = field_aspect (path p).

(** What the claim asks of a bare tag name [t]: [remove_tag] on it appends
    a remove. *)
Definition remove_tag_removes (t : string) : Prop :=
  forall (self : loc) (w : World),
    is_chart_builder w self = true ->
    exists p,
      remove_tag self (IsStr t) w
      = (Ok self,
         append_patches self
           [mkPatch GlobalTags_ASPECT_NAME OpRemove p empty_marker] w).

(** The add and the remove of a custom property at the path [p]. *)
Definition property_add (p v : string) : Patch :=
  mkPatch ChartInfo_ASPECT_NAME OpAdd p (VStr v).

Definition property_remove (p : string) : Patch :=
  mkPatch ChartInfo_ASPECT_NAME OpRemove p empty_marker.

(** The operation [add_inputs] appends for one identifier. *)
Definition input_patch (u : string) : Patch :=
  mkPatch ChartInfo_ASPECT_NAME OpAdd ("/inputs/" +:+ u) (VStr u).

(** An edge to a user, which is no dataset. *)
Definition user_edge : Edge :=
  {| destinationUrn := "urn:li:corpuser:bob";
     created := Some {| time := 7; actor := "urn:li:corpuser:alice" |};
     lastModified := None |}.

(** * Properties *)

(** ** The monad *)

Lemma bind_Ok {A B} (m : M A) (k : A -> M B) w a w' :
  m w = (Ok a, w') -> bind m k w = k a w'.
Proof. intros H. unfold bind. now rewrite H. Qed.

Lemma bind_Raise {A B} (m : M A) (k : A -> M B) w e w' :
  m w = (Raise e, w') -> bind m k w = (Raise e, w').
Proof. intros H. unfold bind. now rewrite H. Qed.

Lemma deref_live self w b :
  heap w !! self = Some b -> deref self w = (Ok b, w).
Proof. intros H. unfold deref, bind, get_world. now rewrite H. Qed.

(** ** The store *)

Lemma set_patches_same b : set_patches (patches (base b)) b = b.
Proof. now destruct b as [[? ? ? ?] ? ?]. Qed.

Lemma set_heap_same w : set_heap (heap w) w = w.
Proof. now destruct w. Qed.

Lemma append_patches_nil self w : append_patches self [] w = w.
Proof.
  unfold append_patches. destruct (heap w !! self) as [b|] eqn:E; [|easy].
  rewrite app_nil_r, set_patches_same, list_insert_id by exact E.
  apply set_heap_same.
Qed.

Lemma heap_append_patches self ps w b :
  heap w !! self = Some b ->
  heap (append_patches self ps w) !! self
  = Some (set_patches (patches (base b) ++ ps)%list b).
Proof.
  intros E. unfold append_patches. rewrite E. simpl.
  apply list_lookup_insert_eq. now apply lookup_lt_Some with b.
Qed.

Lemma patches_of_append_patches self ps w :
  is_Some (heap w !! self) ->
  patches_of (append_patches self ps w) self = (patches_of w self ++ ps)%list.
Proof.
  intros [b E]. unfold patches_of at 1.
  rewrite (heap_append_patches _ _ _ _ E). unfold patches_of. now rewrite E.
Qed.

Lemma append_patches_app self ps qs w :
  append_patches self qs (append_patches self ps w)
  = append_patches self (ps ++ qs)%list w.
Proof.
  destruct (heap w !! self) as [b|] eqn:E.
  - unfold append_patches at 1. rewrite (heap_append_patches _ _ _ _ E).
    unfold append_patches. rewrite E. unfold set_heap. simpl.
    rewrite list_insert_insert_eq. unfold set_patches. simpl.
    now rewrite <- List.app_assoc.
  - unfold append_patches. now rewrite E; simpl; rewrite E.
Qed.

Lemma length_heap_append_patches self ps w :
  length (heap (append_patches self ps w)) = length (heap w).
Proof.
  unfold append_patches. destruct (heap w !! self); [|easy].
  simpl. apply length_insert.
Qed.

Lemma is_chart_builder_live w self :
  is_chart_builder w self = true ->
  exists b, heap w !! self = Some b
            /\ cp_parent (custom_properties_patch_helper b) = self
            /\ cp_aspect_name (custom_properties_patch_helper b)
               = ChartInfo_ASPECT_NAME
            /\ own_parent (ownership_patch_helper b) = self.
Proof.
  unfold is_chart_builder. destruct (heap w !! self) as [b|]; [|easy].
  intros H. apply andb_true_iff in H as [H H3].
  apply andb_true_iff in H as [H1 H2].
  exists b. repeat split.
  - now apply Nat.eqb_eq.
  - now apply String.eqb_eq.
  - now apply Nat.eqb_eq.
Qed.

Lemma is_chart_builder_append_patches self ps w :
  is_chart_builder w self = true ->
  is_chart_builder (append_patches self ps w) self = true.
Proof.
  intros H. destruct (is_chart_builder_live _ _ H) as (b & E & _).
  unfold is_chart_builder in *.
  rewrite (heap_append_patches _ _ _ _ E). now rewrite E in H.
Qed.

(** ** The accumulator's append *)

Lemma _add_patch_live self a o p v w :
  is_Some (heap w !! self) ->
  (String.eqb p "" || String.eqb a "")%bool = false ->
  _add_patch self a o p v w = (Ok tt, append_patches self [mkPatch a o p v] w).
Proof.
  intros [b E] Hne. unfold _add_patch. rewrite Hne.
  rewrite (bind_Ok _ _ _ _ _ (deref_live _ _ _ E)).
  unfold bind, get_world, put_heap, append_patches. now rewrite E.
Qed.

Lemma _add_patch_dangling self a o p v w :
  heap w !! self = None ->
  exists e, _add_patch self a o p v w = (Raise e, w).
Proof.
  intros E. unfold _add_patch.
  destruct (String.eqb p "" || String.eqb a "")%bool; [now eexists|].
  exists DanglingReference. unfold deref, bind, get_world. simpl. now rewrite E.
Qed.

Lemma _add_patch_then_self self a o p v w :
  is_Some (heap w !! self) ->
  (String.eqb p "" || String.eqb a "")%bool = false ->
  (_add_patch self a o p v ;;; ret self) w
  = (Ok self, append_patches self [mkPatch a o p v] w).
Proof.
  intros L Hne. now rewrite (bind_Ok _ _ _ _ _ (_add_patch_live _ _ _ _ _ _ L Hne)).
Qed.

Lemma is_chart_builder_is_Some w self :
  is_chart_builder w self = true -> is_Some (heap w !! self).
Proof.
  intros H. destruct (is_chart_builder_live _ _ H) as (b & E & _). now exists b.
Qed.

Create HintDb chart.
#[local] Hint Resolve is_chart_builder_is_Some : chart.

Example sample_world_builder : is_chart_builder sample_world 0%nat = true.
Proof. reflexivity. Qed.

Example sample_world_empty : patches_of sample_world 0%nat = [].
Proof. reflexivity. Qed.

(** ** Required scalars *)

(** C5: [set_title] and [set_description] given the empty string fail with
    the required-field error before anything is appended: the world, and
    with it the accumulator, is the one before the call; on a builder fresh
    from its constructor the accumulator is still empty. *)
Theorem set_title_empty_fails (self : loc) (w : World) :
  set_title self "" w
  = (Raise (RequiredFieldError "ChartInfo title should not be None"), w)
  /\ set_description self "" w
     = (Raise (RequiredFieldError
                 "DashboardInfo description should not be None"), w)
  /\ (let fresh :=
        (b <- chart.__init__ "urn:li:chart:(tool,id1)" None None ;;
         set_title b "") w in
      fst fresh = Raise (RequiredFieldError "ChartInfo title should not be None")
      /\ patches_of (snd fresh) (length (heap w)) = []).
Proof.
  repeat split.
  unfold patches_of. simpl. now rewrite list_lookup_middle.
Qed.

(** ** Optional scalars *)

(** C8: each of [set_last_refreshed], [set_external_url], [set_chart_url],
    [set_type] and [set_access] returns the builder; given a value that is
    neither null nor empty nor zero it appends exactly one [add] at its field
    with that value, and given null, the empty string or zero it leaves the
    world as it is. *)
Theorem optional_scalar_setters (self : loc) (w : World)
    (H : is_chart_builder w self = true) :
  (forall v,
     set_last_refreshed self v w
     = (Ok self,
        match v with
        | Some z =>
            if Z.eqb z 0 then w
            else append_patches self
                   [mkPatch ChartInfo_ASPECT_NAME OpAdd "/lastRefreshed" (VInt z)] w
        | None => w
        end))
  /\ (forall v,
        set_external_url self v w
        = (Ok self,
           match v with
           | Some s =>
               if String.eqb s "" then w
               else append_patches self
                      [mkPatch ChartInfo_ASPECT_NAME OpAdd "/externalUrl" (VStr s)] w
           | None => w
           end))
  /\ (forall v,
        set_chart_url self v w
        = (Ok self,
           match v with
           | Some s =>
               if String.eqb s "" then w
               else append_patches self
                      [mkPatch ChartInfo_ASPECT_NAME OpAdd "/chartUrl" (VStr s)] w
           | None => w
           end))
  /\ (forall v,
        set_type self v w
        = (Ok self,
           match v with
           | Some s =>
               if String.eqb s "" then w
               else append_patches self
                      [mkPatch ChartInfo_ASPECT_NAME OpAdd "/type" (VStr s)] w
           | None => w
           end))
  /\ (forall v,
        set_access self v w
        = (Ok self,
           match v with
           | Some s =>
               if String.eqb s "" then w
               else append_patches self
                      [mkPatch ChartInfo_ASPECT_NAME OpAdd "/access" (VStr s)] w
           | None => w
           end))
  /\ (forall p,
        patches_of (append_patches self [p] w) self
        = (patches_of w self ++ [p])%list).
Proof.
  assert (L : is_Some (heap w !! self)) by auto with chart.
  repeat split; intros v.
  - unfold set_last_refreshed. destruct v as [z|]; [|easy].
    destruct (Z.eqb z 0); [easy|]. now apply _add_patch_then_self.
  - unfold set_external_url. destruct v as [s|]; [|easy].
    destruct (String.eqb s ""); [easy|]. now apply _add_patch_then_self.
  - unfold set_chart_url. destruct v as [s|]; [|easy].
    destruct (String.eqb s ""); [easy|]. now apply _add_patch_then_self.
  - unfold set_type. destruct v as [s|]; [|easy].
    destruct (String.eqb s ""); [easy|]. now apply _add_patch_then_self.
  - unfold set_access. destruct v as [s|]; [|easy].
    destruct (String.eqb s ""); [easy|]. now apply _add_patch_then_self.
  - now apply patches_of_append_patches.
Qed.

Lemma optional_scalar_setters_witness :
  is_chart_builder sample_world 0%nat = true
  /\ set_external_url 0%nat (Some "https://bi.example/c/1") sample_world
     = (Ok 0%nat,
        append_patches 0%nat
          [mkPatch ChartInfo_ASPECT_NAME OpAdd "/externalUrl"
             (VStr "https://bi.example/c/1")] sample_world)
  /\ set_last_refreshed 0%nat (Some 0) sample_world = (Ok 0%nat, sample_world).
Proof.
  split; [reflexivity|].
  pose proof (optional_scalar_setters 0%nat sample_world eq_refl)
    as (R & U & _).
  split; [exact (U (Some "https://bi.example/c/1")) | exact (R (Some 0))].
Defined.

(** ** Construction and build *)

Lemma build_live self w :
  is_Some (heap w !! self) ->
  exists b,
    heap w !! self = Some b
    /\ build self w
       = (Ok {| entityId := mpp_urn (base b);
                aspectPatches := materialize (patches_of w self);
                systemMetadata := system_metadata (base b);
                auditHeader := audit_header (base b) |}, w).
Proof.
  intros [b E]. exists b. split; [exact E|]. unfold build.
  rewrite (bind_Ok _ _ _ _ _ (deref_live _ _ _ E)).
  unfold patches_of. now rewrite E.
Qed.

Lemma chart_init_ok urn sm ah w u :
  Urn.create_from_string urn = Some u ->
  String.eqb (Urn.get_type u) chart.ENTITY_TYPE = true ->
  chart.__init__ urn sm ah w
  = (Ok (length (heap w)),
     set_heap (heap w ++ [fresh_builder (length (heap w)) urn sm ah])%list w).
Proof.
  intros P K. unfold chart.__init__, mcp_patch_builder.__init__.
  rewrite P, K. reflexivity.
Qed.

Lemma fresh_builder_live urn sm ah w :
  heap (set_heap (heap w ++ [fresh_builder (length (heap w)) urn sm ah])%list w)
    !! length (heap w)
  = Some (fresh_builder (length (heap w)) urn sm ah).
Proof. simpl. apply list_lookup_middle. reflexivity. Qed.

Lemma fresh_builder_is_chart_builder urn sm ah w :
  is_chart_builder
    (set_heap (heap w ++ [fresh_builder (length (heap w)) urn sm ah])%list w)
    (length (heap w)) = true.
Proof.
  unfold is_chart_builder. rewrite fresh_builder_live. simpl.
  now rewrite Nat.eqb_refl.
Qed.

(** ** Wrong-kind relationship targets *)

(** C4: [add_input_edge] on a target whose identifier is of another kind
    than dataset fails with [InvalidUrnTypeError], and the world after the
    failure is the world before the call: nothing was appended. *)
Theorem add_input_edge_wrong_kind (self : loc) (input : EdgeOrRef)
    (w : World) (u : Urn.t)
    (P : Urn.create_from_string (target_urn input) = Some u)
    (K : String.eqb (Urn.get_type u) "dataset" = false) :
  add_input_edge self input w = (Raise (InvalidUrnTypeError "add_dataset"), w).
Proof.
  unfold add_input_edge.
  destruct input as [e|r]; simpl in P; unfold bind; simpl;
    rewrite P, K; reflexivity.
Qed.

Lemma add_input_edge_wrong_kind_witness :
  add_input_edge 0%nat (IsRef (IsStr "urn:li:corpuser:bob")) sample_world
  = (Raise (InvalidUrnTypeError "add_dataset"), sample_world)
  /\ patches_of sample_world 0%nat = [].
Proof.
  split; [|reflexivity].
  apply (add_input_edge_wrong_kind 0%nat (IsRef (IsStr "urn:li:corpuser:bob"))
           sample_world (Urn.mk "corpuser" "bob")); reflexivity.
Defined.

(** ** Wholesale replacement *)

(** C6: [set_input_edges], [set_custom_properties] and [set_owners] each
    append exactly one [add] whose path is the bare field and whose value is
    the whole collection; on a builder whose accumulator was empty, [build]
    then shows that one operation and no other. *)
Theorem wholesale_set_one_operation (self : loc) (w : World)
    (H : is_chart_builder w self = true) :
  (forall inputs,
     let p := mkPatch ChartInfo_ASPECT_NAME OpAdd "/inputEdges" (VEdges inputs) in
     set_input_edges self inputs w = (Ok self, append_patches self [p] w)
     /\ (patches_of w self = [] ->
         exists req,
           fst ((b <- set_input_edges self inputs ;; build b) w) = Ok req
           /\ aspectPatches req = [(ChartInfo_ASPECT_NAME, [p])]))
  /\ (forall props,
        let p := mkPatch ChartInfo_ASPECT_NAME OpAdd "/customProperties"
                   (VDict props) in
        set_custom_properties self props w = (Ok self, append_patches self [p] w)
        /\ (patches_of w self = [] ->
            exists req,
              fst ((b <- set_custom_properties self props ;; build b) w) = Ok req
              /\ aspectPatches req = [(ChartInfo_ASPECT_NAME, [p])]))
  /\ (forall owners,
        let p := mkPatch Ownership_ASPECT_NAME OpAdd "/owners" (VOwners owners) in
        set_owners self owners w = (Ok self, append_patches self [p] w)
        /\ (patches_of w self = [] ->
            exists req,
              fst ((b <- set_owners self owners ;; build b) w) = Ok req
              /\ aspectPatches req = [(Ownership_ASPECT_NAME, [p])])).
Proof.
  assert (L : is_Some (heap w !! self)) by auto with chart.
  assert (B : forall (m : M loc) p,
             m w = (Ok self, append_patches self [p] w) ->
             patches_of w self = [] ->
             exists req,
               fst ((b <- m ;; build b) w) = Ok req
               /\ aspectPatches req = [(aspectName p, [p])]).
  { intros m p Hm Hnil. rewrite (bind_Ok _ _ _ _ _ Hm).
    destruct (build_live self (append_patches self [p] w)) as (b & _ & Hb).
    - destruct L as [b E]. rewrite (heap_append_patches _ _ _ _ E). now eexists.
    - rewrite Hb. eexists. split; [reflexivity|]. simpl.
      rewrite patches_of_append_patches by exact L. now rewrite Hnil. }
  assert (S : forall owners,
             set_owners self owners w
             = (Ok self,
                append_patches self
                  [mkPatch Ownership_ASPECT_NAME OpAdd "/owners" (VOwners owners)] w)).
  { intros owners. destruct (is_chart_builder_live _ _ H) as (b & E & _ & _ & O).
    unfold set_owners. rewrite (bind_Ok _ _ _ _ _ (deref_live _ _ _ E)).
    unfold ownership.set_owners. rewrite O. now apply _add_patch_then_self. }
  split; [|split].
  - intros inputs p.
    assert (E : set_input_edges self inputs w = (Ok self, append_patches self [p] w))
      by now apply _add_patch_then_self.
    split; [exact E|]. intros Hnil. exact (B _ p E Hnil).
  - intros props p.
    assert (E : set_custom_properties self props w
                = (Ok self, append_patches self [p] w))
      by now apply _add_patch_then_self.
    split; [exact E|]. intros Hnil. exact (B _ p E Hnil).
  - intros owners p. split; [apply S|].
    intros Hnil. exact (B _ p (S owners) Hnil).
Qed.

Lemma wholesale_set_one_operation_witness :
  is_chart_builder sample_world 0%nat = true
  /\ patches_of sample_world 0%nat = []
  /\ set_custom_properties 0%nat [("team", "growth")] sample_world
     = (Ok 0%nat,
        append_patches 0%nat
          [mkPatch ChartInfo_ASPECT_NAME OpAdd "/customProperties"
             (VDict [("team", "growth")])] sample_world)
  /\ exists req,
       fst ((b <- set_custom_properties 0%nat [("team", "growth")] ;; build b)
              sample_world) = Ok req
       /\ aspectPatches req
          = [(ChartInfo_ASPECT_NAME,
              [mkPatch ChartInfo_ASPECT_NAME OpAdd "/customProperties"
                 (VDict [("team", "growth")])])].
Proof.
  split; [reflexivity|]. split; [reflexivity|].
  pose proof (wholesale_set_one_operation 0%nat sample_world eq_refl)
    as (_ & C & _).
  destruct (C [("team", "growth")]) as [S B].
  split; [exact S | exact (B eq_refl)].
Defined.

(** ** Every call at once *)

Lemma add_inputs_loop_live self urns w :
  is_Some (heap w !! self) ->
  add_inputs_loop self urns w
  = (Ok tt,
     append_patches self
       (map (fun u => mkPatch ChartInfo_ASPECT_NAME OpAdd ("/inputs/" +:+ u)
                        (VStr u)) urns) w).
Proof.
  revert w. induction urns as [|u urns IH]; intros w L.
  - simpl. now rewrite append_patches_nil.
  - cbn [add_inputs_loop map].
    rewrite (bind_Ok _ _ _ _ _
               (_add_patch_live self ChartInfo_ASPECT_NAME OpAdd
                  ("/inputs/" +:+ u) (VStr u) w L eq_refl)).
    rewrite IH.
    + now rewrite append_patches_app.
    + destruct L as [b E]. rewrite (heap_append_patches _ _ _ _ E). now eexists.
Qed.

Ltac one_patch := now apply _add_patch_then_self.

(** Every call either raises, and then the world is the world before the
    call, or returns [self] after appending the operations of
    [call_outcome]. *)
Lemma call_spec self c w :
  is_chart_builder w self = true ->
  call self c w
  = match call_outcome c with
    | inl e => (Raise e, w)
    | inr ps => (Ok self, append_patches self ps w)
    end.
Proof.
  intros H. pose proof (is_chart_builder_is_Some _ _ H) as L.
  destruct (is_chart_builder_live _ _ H) as (b & E & P & A & O).
  destruct c; cbn [call call_outcome].
  - unfold add_owner. rewrite (bind_Ok _ _ _ _ _ (deref_live _ _ _ E)).
    unfold ownership.add_owner. rewrite O.
    destruct (String.eqb (owner o) ""); [reflexivity | one_patch].
  - unfold remove_owner. rewrite (bind_Ok _ _ _ _ _ (deref_live _ _ _ E)).
    unfold ownership.remove_owner. rewrite O.
    destruct (String.eqb o ""); [reflexivity | one_patch].
  - unfold set_owners. rewrite (bind_Ok _ _ _ _ _ (deref_live _ _ _ E)).
    unfold ownership.set_owners. rewrite O. one_patch.
  - unfold add_input_edge.
    assert (U : exists e,
               input_urn_and_edge input w = (Ok (target_urn input, e), w)
               /\ destinationUrn e = target_urn input).
    { destruct input as [e|r]; [now exists e|]. now eexists. }
    destruct U as (e & U & D). rewrite (bind_Ok _ _ _ _ _ U).
    cbn [bind fst snd _ensure_urn_type]. rewrite D.
    destruct (Urn.create_from_string (target_urn input)) as [u|]; [|reflexivity].
    destruct (String.eqb (Urn.get_type u) "dataset"); [|reflexivity].
    cbn [ret]. one_patch.
  - unfold remove_input_edge. one_patch.
  - unfold set_input_edges. one_patch.
  - unfold add_tag. one_patch.
  - unfold remove_tag, tag_key. destruct t as [s|u]; [|one_patch].
    destruct (String.prefix "urn:li:tag:" s); cbn [negb]; [one_patch|].
    destruct (TagUrn.create_from_id s) as [u|]; [one_patch | reflexivity].
  - unfold add_term. one_patch.
  - unfold remove_term, term_key. destruct t as [s|u]; [|one_patch].
    destruct (String.prefix "urn:li:glossaryTerm:" s); one_patch.
  - unfold set_custom_properties. one_patch.
  - unfold add_custom_property.
    rewrite (bind_Ok _ _ _ _ _ (deref_live _ _ _ E)).
    unfold custom_properties.add_property. rewrite P, A. one_patch.
  - unfold remove_custom_property.
    rewrite (bind_Ok _ _ _ _ _ (deref_live _ _ _ E)).
    unfold custom_properties.remove_property. rewrite P, A. one_patch.
  - unfold set_title. destruct (String.eqb title ""); [reflexivity | one_patch].
  - unfold set_description.
    destruct (String.eqb description ""); [reflexivity | one_patch].
  - unfold set_last_refreshed. destruct last_refreshed as [z|].
    + destruct (Z.eqb z 0); cbn [negb];
        [now rewrite append_patches_nil | one_patch].
    + now rewrite append_patches_nil.
  - unfold set_last_modified. destruct last_modified as [s|];
      [one_patch | now rewrite append_patches_nil].
  - unfold set_external_url, optional_str_patch. destruct external_url as [s|].
    + destruct (String.eqb s ""); cbn [negb];
        [now rewrite append_patches_nil | one_patch].
    + now rewrite append_patches_nil.
  - unfold set_chart_url, optional_str_patch. destruct dashboard_url as [s|].
    + destruct (String.eqb s ""); cbn [negb];
        [now rewrite append_patches_nil | one_patch].
    + now rewrite append_patches_nil.
  - unfold set_type, optional_str_patch. destruct type0 as [s|].
    + destruct (String.eqb s ""); cbn [negb];
        [now rewrite append_patches_nil | one_patch].
    + now rewrite append_patches_nil.
  - unfold set_access, optional_str_patch. destruct access as [s|].
    + destruct (String.eqb s ""); cbn [negb];
        [now rewrite append_patches_nil | one_patch].
    + now rewrite append_patches_nil.
  - unfold add_inputs. destruct input_urns as [[|u urns]|]; cbn [default map].
    + now rewrite append_patches_nil.
    + now rewrite (bind_Ok _ _ _ _ _ (add_inputs_loop_live _ _ _ L)).
    + now rewrite append_patches_nil.
Qed.

Lemma call_returns self c w ps :
  is_chart_builder w self = true ->
  call_outcome c = inr ps ->
  call self c w = (Ok self, append_patches self ps w).
Proof. intros H O. rewrite (call_spec _ _ _ H). now rewrite O. Qed.

Lemma call_raises self c w e :
  is_chart_builder w self = true ->
  call_outcome c = inl e ->
  call self c w = (Raise e, w).
Proof. intros H O. rewrite (call_spec _ _ _ H). now rewrite O. Qed.

(** ** The scenario of the spec *)

(** C1: in any world, building the chart builder for
    [urn:li:chart:(tool,id1)] after [set_title("Revenue")],
    [add_tag(Tag(tag="urn:li:tag:pii"))] and
    [remove_owner("urn:li:corpuser:alice")] gives a request for that entity
    whose batch holds exactly three operations, in this order: the add at
    [/title] with value "Revenue", the add at [/tags/urn:li:tag:pii] and the
    remove at [/owners/urn:li:corpuser:alice]. *)
Theorem scenario_three_operations (w : World) :
  exists req,
    fst (scenario w) = Ok req
    /\ entityId req = "urn:li:chart:(tool,id1)"
    /\ aspectPatches req
       = [("chartInfo", [scenario_title]);
          ("globalTags", [scenario_tag]);
          ("ownership", [scenario_owner])]
    /\ operations req = [scenario_title; scenario_tag; scenario_owner].
Proof.
  unfold scenario.
  rewrite (bind_Ok _ _ _ _ _
             (chart_init_ok "urn:li:chart:(tool,id1)" None None w
                (Urn.mk "chart" "(tool,id1)") eq_refl eq_refl)).
  set (self := length (heap w)).
  pose proof (fresh_builder_is_chart_builder "urn:li:chart:(tool,id1)"
                None None w) as H1.
  pose proof (fresh_builder_live "urn:li:chart:(tool,id1)" None None w) as E1.
  fold self in H1, E1. revert H1 E1.
  generalize (set_heap
                (heap w ++ [fresh_builder self "urn:li:chart:(tool,id1)" None None])%list
                w).
  intros w1 H1 E1.
  erewrite bind_Ok
    by exact (call_returns self (SetTitle "Revenue") w1 _ H1 eq_refl).
  pose proof (is_chart_builder_append_patches self [scenario_title] w1 H1) as H2.
  erewrite bind_Ok
    by exact (call_returns self (AddTag {| tag := "urn:li:tag:pii" |}) _ _ H2
                eq_refl).
  rewrite append_patches_app. cbn [app].
  pose proof (is_chart_builder_append_patches self
                [scenario_title; scenario_tag] w1 H1) as H3.
  erewrite bind_Ok
    by exact (call_returns self (RemoveOwner "urn:li:corpuser:alice" None) _ _
                H3 eq_refl).
  rewrite append_patches_app. cbn [app].
  change (mkPatch Ownership_ASPECT_NAME OpRemove _ empty_marker)
    with scenario_owner.
  pose proof (heap_append_patches self
                [scenario_title; scenario_tag; scenario_owner] w1 _ E1) as E4.
  destruct (build_live self _ (ex_intro _ _ E4)) as (b & Eb & ->).
  rewrite E4 in Eb. injection Eb as <-.
  rewrite patches_of_append_patches by (eexists; exact E1).
  unfold patches_of. rewrite E1. eexists. split; [reflexivity|].
  repeat split.
Qed.

(** ** The codec *)

Lemma unquote_quote s : unquote (quote s) = s.
Proof.
  induction s as [|c s IH]; [reflexivity|]. cbn [quote].
  destruct (Ascii.eqb c "~") eqn:T.
  - apply Ascii.eqb_eq in T. subst c. cbn. now rewrite IH.
  - destruct (Ascii.eqb c "/") eqn:S.
    + apply Ascii.eqb_eq in S. subst c. cbn. now rewrite IH.
    + cbn [unquote]. rewrite T. now rewrite IH.
Qed.

Lemma quote_injective s t : quote s = quote t -> s = t.
Proof.
  intros H. rewrite <- (unquote_quote s), <- (unquote_quote t). now rewrite H.
Qed.

Lemma quote_no_separator s : has_char "/" (quote s) = false.
Proof.
  induction s as [|c s IH]; [reflexivity|]. cbn [quote].
  destruct (Ascii.eqb c "~") eqn:T; [exact IH|].
  destruct (Ascii.eqb c "/") eqn:S; [exact IH|].
  cbn [has_char]. now rewrite S, IH.
Qed.

Lemma quote_plain s :
  has_char "~" s = false -> has_char "/" s = false -> quote s = s.
Proof.
  induction s as [|c s IH]; [reflexivity|]. cbn [has_char quote].
  intros T S. apply orb_false_iff in T as [T T'].
  apply orb_false_iff in S as [S S']. rewrite T, S. now rewrite IH.
Qed.

(** ** Entries added and removed *)

Lemma prefix_append p s : String.prefix p (p +:+ s) = true.
Proof.
  induction p as [|a p IH]; [now destruct s|].
  change (String a p +:+ s) with (String a (p +:+ s)).
  change (String.prefix (String a p) (String a (p +:+ s)))
    with (if ascii_dec a a then String.prefix p (p +:+ s) else false).
  destruct (ascii_dec a a) as [_|N]; [exact IH | now destruct N].
Qed.

Lemma materialize_snoc ps p :
  materialize (ps ++ [p])%list = group_insert p (materialize ps).
Proof. unfold materialize. now rewrite fold_left_app. Qed.

Lemma group_insert_twice p q g :
  aspectName q = aspectName p ->
  exists pre,
    In (aspectName p, (pre ++ [p; q])%list) (group_insert q (group_insert p g)).
Proof.
  intros A. induction g as [|[a ps] g IH].
  - exists []. cbn [group_insert]. rewrite A, String.eqb_refl. now left.
  - cbn [group_insert]. destruct (String.eqb a (aspectName p)) eqn:E.
    + cbn [group_insert]. rewrite A, E. apply String.eqb_eq in E. subst a.
      exists ps. left. now rewrite <- List.app_assoc.
    + cbn [group_insert]. rewrite A, E. destruct IH as [pre IH].
      exists pre. now right.
Qed.

Lemma group_insert_length p g :
  length (concat (map snd (group_insert p g)))
  = S (length (concat (map snd g))).
Proof.
  induction g as [|[a ps] g IH]; [reflexivity|]. cbn [group_insert].
  destruct (String.eqb a (aspectName p)); cbn [map snd concat].
  - rewrite !length_app. cbn [length]. lia.
  - rewrite !length_app, IH. lia.
Qed.

Lemma materialize_length ps :
  length (concat (map snd (materialize ps))) = length ps.
Proof.
  induction ps as [|p ps IH] using rev_ind; [reflexivity|].
  rewrite materialize_snoc, group_insert_length, IH, length_app.
  cbn [length]. lia.
Qed.

(** C7: for every key, the empty one too, [add_custom_property] followed by
    [remove_custom_property] on that key returns the builder and leaves an
    add and a remove at one and the same path under [/customProperties/] at
    the end of the accumulator; [build] then shows both in the batch of the
    chart information aspect, the add right before the remove, after what
    the aspect held before, with as many operations in the batch as in the
    accumulator: nothing is collapsed.  On a builder whose accumulator was
    empty the batch is these two operations. *)
Theorem add_then_remove_both_kept (self : loc) (k v : string) (w : World)
    (H : is_chart_builder w self = true) :
  exists p w' req,
    String.prefix "/customProperties/" p = true
    /\ (b <- add_custom_property self k v ;; remove_custom_property b k) w
       = (Ok self, w')
    /\ patches_of w' self
       = (patches_of w self ++ [property_add p v; property_remove p])%list
    /\ build self w' = (Ok req, w')
    /\ (exists pre,
          In (ChartInfo_ASPECT_NAME,
              (pre ++ [property_add p v; property_remove p])%list)
            (aspectPatches req))
    /\ length (operations req) = length (patches_of w' self)
    /\ (patches_of w self = [] ->
        aspectPatches req
        = [(ChartInfo_ASPECT_NAME, [property_add p v; property_remove p])]).
Proof.
  set (p := "/customProperties/" +:+ quote k).
  pose proof (is_chart_builder_is_Some _ _ H) as L.
  pose proof (is_chart_builder_append_patches self [property_add p v] w H)
    as H1.
  pose proof (is_chart_builder_append_patches self
                [property_add p v; property_remove p] w H) as H2.
  destruct (build_live self _ (is_chart_builder_is_Some _ _ H2))
    as (b' & _ & B).
  exists p, (append_patches self [property_add p v; property_remove p] w).
  eexists. split; [apply prefix_append|]. split; [|split; [|split; [exact B|]]].
  - erewrite bind_Ok
      by exact (call_returns self (AddCustomProperty k v) w _ H eq_refl).
    etransitivity;
      [exact (call_returns self (RemoveCustomProperty k) _ _ H1 eq_refl)|].
    now rewrite append_patches_app.
  - now apply patches_of_append_patches.
  - cbn [aspectPatches operations].
    rewrite (patches_of_append_patches _ _ _ L).
    split; [|split].
    + change [property_add p v; property_remove p]
        with ([property_add p v] ++ [property_remove p])%list.
      rewrite List.app_assoc, !materialize_snoc.
      exact (group_insert_twice (property_add p v) (property_remove p) _
               eq_refl).
    + apply materialize_length.
    + intros ->. reflexivity.
Qed.

Lemma add_then_remove_both_kept_witness :
  is_chart_builder sample_world 0%nat = true
  /\ patches_of sample_world 0%nat = []
  /\ (exists p w' req,
        (b <- add_custom_property 0%nat "k1" "v1" ;;
         remove_custom_property b "k1") sample_world = (Ok 0%nat, w')
        /\ build 0%nat w' = (Ok req, w')
        /\ aspectPatches req
           = [(ChartInfo_ASPECT_NAME,
               [property_add p "v1"; property_remove p])])
  /\ (exists p w' req,
        (b <- add_custom_property 0%nat "" "v1" ;;
         remove_custom_property b "") sample_world = (Ok 0%nat, w')
        /\ build 0%nat w' = (Ok req, w')
        /\ aspectPatches req
           = [(ChartInfo_ASPECT_NAME,
               [property_add p "v1"; property_remove p])]).
Proof.
  split; [reflexivity|]. split; [reflexivity|]. split.
  - destruct (add_then_remove_both_kept 0%nat "k1" "v1" sample_world eq_refl)
      as (p & w' & req & _ & C & _ & B & _ & _ & E).
    exists p, w', req. split; [exact C|]. split; [exact B | exact (E eq_refl)].
  - destruct (add_then_remove_both_kept 0%nat "" "v1" sample_world eq_refl)
      as (p & w' & req & _ & C & _ & B & _ & _ & E).
    exists p, w', req. split; [exact C|]. split; [exact B | exact (E eq_refl)].
Defined.

(** ** Fluent chaining *)

(** C9: on a chart builder every mutation call either returns the reference
    it was invoked on, with no object created and the builder still a chart
    builder, or raises and leaves the world as it was; and it returns unless
    [call_outcome] names the error of the call. *)
Theorem mutation_returns_self (self : loc) (c : Call) (w : World)
    (H : is_chart_builder w self = true) :
  ((exists w',
       call self c w = (Ok self, w')
       /\ length (heap w') = length (heap w)
       /\ is_chart_builder w' self = true)
   \/ (exists e, call self c w = (Raise e, w)))
  /\ ((forall e, call_outcome c <> inl e) ->
      exists w', call self c w = (Ok self, w')).
Proof.
  rewrite (call_spec _ _ _ H). destruct (call_outcome c) as [e|ps]; split.
  - right. now exists e.
  - intros N. now destruct (N e).
  - left. eexists. split; [reflexivity|]. split.
    + apply length_heap_append_patches.
    + now apply is_chart_builder_append_patches.
  - intros _. now eexists.
Qed.

Lemma mutation_returns_self_witness :
  is_chart_builder sample_world 0%nat = true
  /\ exists w',
       call 0%nat (AddTerm {| urn := "urn:li:glossaryTerm:kpi" |}) sample_world
       = (Ok 0%nat, w').
Proof.
  split; [reflexivity|].
  apply (mutation_returns_self 0%nat
           (AddTerm {| urn := "urn:li:glossaryTerm:kpi" |}) sample_world eq_refl).
  intros e. discriminate.
Defined.

(** ** Keys of the remove calls *)

Lemma prefix_weaken p q s :
  String.prefix (p +:+ q) s = true -> String.prefix p s = true.
Proof.
  revert s. induction p as [|a p IH]; intros s Hq; [now destruct s|].
  destruct s as [|b s]; [discriminate Hq|].
  change (String a p +:+ q) with (String a (p +:+ q)) in Hq.
  change ((if ascii_dec a b then String.prefix (p +:+ q) s else false) = true)
    in Hq.
  change ((if ascii_dec a b then String.prefix p s else false) = true).
  destruct (ascii_dec a b); [now apply IH | discriminate Hq].
Qed.

Lemma encode_plain s :
  UrnEncoder.contains_reserved_char s = false ->
  UrnEncoder.encode_string s = s.
Proof.
  induction s as [|c s IH]; [reflexivity|]. intros R.
  cbn [UrnEncoder.contains_reserved_char] in R.
  apply orb_false_iff in R as [R Rs].
  apply orb_false_iff in R as [R U].
  apply orb_false_iff in R as [R R3].
  apply orb_false_iff in R as [R1 R2].
  cbn [UrnEncoder.encode_string]. rewrite R1, R2, R3.
  destruct s as [|d [|e s'']]; try (now rewrite (IH Rs)).
  cbn [UrnEncoder.unit_separator_at] in U. rewrite U. now rewrite (IH Rs).
Qed.

Lemma create_from_id_plain t :
  String.prefix "urn:li:" t = false ->
  String.eqb t "" = false ->
  UrnEncoder.contains_reserved_char t = false ->
  TagUrn.create_from_id t = Some (Urn.mk "tag" t).
Proof.
  intros P N R. unfold TagUrn.create_from_id.
  change Urn.LI_DOMAIN with "urn:li:". rewrite P.
  cbv zeta. now rewrite (encode_plain _ R), N.
Qed.

Lemma create_from_id_tag s u :
  TagUrn.create_from_id s = Some u ->
  Urn.to_string u = "urn:li:tag:" +:+ Urn.entity_id u.
Proof.
  unfold TagUrn.create_from_id.
  destruct (String.prefix Urn.LI_DOMAIN s).
  - destruct (Urn.create_from_string s) as [u'|]; [|discriminate].
    destruct (String.eqb (Urn.get_type u') TagUrn.ENTITY_TYPE) eqn:T;
      [|discriminate].
    destruct (negb (UrnEncoder.contains_reserved_char (Urn.entity_id u')));
      [|discriminate].
    cbn [andb]. intros E. injection E as <-.
    apply String.eqb_eq in T. unfold Urn.to_string.
    unfold Urn.get_type in T. now rewrite T.
  - cbv zeta. destruct (String.eqb (UrnEncoder.encode_string s) "");
      [discriminate|].
    intros E. now injection E as <-.
Qed.

(** C10 as stated fails at the empty name: the tag constructor refuses it,
    [remove_tag] raises and nothing is appended. *)
Lemma remove_tag_empty_name : ~ remove_tag_removes "".
Proof.
  intros C. destruct (C 0%nat sample_world eq_refl) as (p & E).
  discriminate E.
Qed.

(** C10, amended: [remove_tag] on a string without the prefix [urn:li:tag:]
    that the tag constructor accepts does what it does on the tag
    identifier made from the string, a remove at [/tags/<that identifier>],
    which for a name without reserved characters is
    [/tags/urn:li:tag:<t>]; on a string the constructor refuses it raises
    and appends nothing.  [remove_term] on a string without the prefix
    [urn:li:glossaryTerm:] removes at [/terms/urn:li:glossaryTerm:<s>]; a
    string that carries the prefix is the key as it is. *)
Theorem remove_tag_term_normalize (self : loc) (w : World)
    (H : is_chart_builder w self = true) :
  (forall t u, String.prefix "urn:li:tag:" t = false ->
     TagUrn.create_from_id t = Some u ->
     remove_tag self (IsStr t) w = remove_tag self (IsUrn u) w
     /\ remove_tag self (IsStr t) w
        = (Ok self,
           append_patches self
             [mkPatch GlobalTags_ASPECT_NAME OpRemove
                ("/tags/" +:+ Urn.to_string u) empty_marker] w))
  /\ (forall t, String.prefix "urn:li:tag:" t = false ->
        TagUrn.create_from_id t = None ->
        remove_tag self (IsStr t) w = (Raise InvalidIdentifierError, w))
  /\ (forall t, String.prefix "urn:li:" t = false ->
        String.eqb t "" = false ->
        UrnEncoder.contains_reserved_char t = false ->
        remove_tag self (IsStr t) w
        = (Ok self,
           append_patches self
             [mkPatch GlobalTags_ASPECT_NAME OpRemove
                ("/tags/urn:li:tag:" +:+ t) empty_marker] w))
  /\ (forall t, String.prefix "urn:li:tag:" t = true ->
        remove_tag self (IsStr t) w
        = (Ok self,
           append_patches self
             [mkPatch GlobalTags_ASPECT_NAME OpRemove ("/tags/" +:+ t)
                empty_marker] w))
  /\ (forall s, String.prefix "urn:li:glossaryTerm:" s = false ->
        remove_term self (IsStr s) w
        = (Ok self,
           append_patches self
             [mkPatch GlossaryTerms_ASPECT_NAME OpRemove
                ("/terms/urn:li:glossaryTerm:" +:+ s) empty_marker] w))
  /\ (forall s, String.prefix "urn:li:glossaryTerm:" s = true ->
        remove_term self (IsStr s) w
        = (Ok self,
           append_patches self
             [mkPatch GlossaryTerms_ASPECT_NAME OpRemove ("/terms/" +:+ s)
                empty_marker] w)).
Proof.
  assert (A : forall t u, String.prefix "urn:li:tag:" t = false ->
              TagUrn.create_from_id t = Some u ->
              remove_tag self (IsStr t) w
              = (Ok self,
                 append_patches self
                   [mkPatch GlobalTags_ASPECT_NAME OpRemove
                      ("/tags/" +:+ Urn.to_string u) empty_marker] w)).
  { intros t u P C. apply (call_returns self (RemoveTag (IsStr t)) w _ H).
    cbn [call_outcome tag_key]. now rewrite P, C. }
  split; [|split; [|split; [|split; [|split]]]].
  - intros t u P C. split; [|now apply A].
    rewrite (A t u P C). symmetry.
    exact (call_returns self (RemoveTag (IsUrn u)) w _ H eq_refl).
  - intros t P C. apply (call_raises self (RemoveTag (IsStr t)) w _ H).
    cbn [call_outcome tag_key]. now rewrite P, C.
  - intros t P N R.
    assert (P' : String.prefix "urn:li:tag:" t = false).
    { destruct (String.prefix "urn:li:tag:" t) eqn:E; [|reflexivity].
      now rewrite (prefix_weaken "urn:li:" "tag:" t E) in P. }
    exact (A t _ P' (create_from_id_plain t P N R)).
  - intros t P. apply (call_returns self (RemoveTag (IsStr t)) w _ H).
    cbn [call_outcome tag_key]. now rewrite P.
  - intros s P. apply (call_returns self (RemoveTerm (IsStr s)) w _ H).
    cbn [call_outcome term_key]. now rewrite P.
  - intros s P. apply (call_returns self (RemoveTerm (IsStr s)) w _ H).
    cbn [call_outcome term_key]. now rewrite P.
Qed.

Lemma remove_tag_term_normalize_witness :
  is_chart_builder sample_world 0%nat = true
  /\ remove_tag 0%nat (IsStr "pii") sample_world
     = (Ok 0%nat,
        append_patches 0%nat
          [mkPatch GlobalTags_ASPECT_NAME OpRemove "/tags/urn:li:tag:pii"
             empty_marker] sample_world)
  /\ remove_tag 0%nat (IsStr "a,b") sample_world
     = (Ok 0%nat,
        append_patches 0%nat
          [mkPatch GlobalTags_ASPECT_NAME OpRemove "/tags/urn:li:tag:a%2Cb"
             empty_marker] sample_world)
  /\ remove_tag 0%nat (IsStr "") sample_world
     = (Raise InvalidIdentifierError, sample_world)
  /\ remove_tag 0%nat (IsStr "urn:li:tag:pii") sample_world
     = (Ok 0%nat,
        append_patches 0%nat
          [mkPatch GlobalTags_ASPECT_NAME OpRemove "/tags/urn:li:tag:pii"
             empty_marker] sample_world)
  /\ remove_term 0%nat (IsStr "kpi") sample_world
     = (Ok 0%nat,
        append_patches 0%nat
          [mkPatch GlossaryTerms_ASPECT_NAME OpRemove
             "/terms/urn:li:glossaryTerm:kpi" empty_marker] sample_world)
  /\ remove_term 0%nat (IsStr "urn:li:glossaryTerm:kpi") sample_world
     = (Ok 0%nat,
        append_patches 0%nat
          [mkPatch GlossaryTerms_ASPECT_NAME OpRemove
             "/terms/urn:li:glossaryTerm:kpi" empty_marker] sample_world).
Proof.
  split; [reflexivity|].
  pose proof (remove_tag_term_normalize 0%nat sample_world eq_refl)
    as (A & R & P & T & G & G').
  split; [exact (P "pii" eq_refl eq_refl eq_refl)|].
  split; [exact (proj2 (A "a,b" (Urn.mk "tag" "a%2Cb") eq_refl eq_refl))|].
  split; [exact (R "" eq_refl eq_refl)|].
  split; [exact (T "urn:li:tag:pii" eq_refl)|].
  split; [exact (G "kpi" eq_refl) | exact (G' "urn:li:glossaryTerm:kpi" eq_refl)].
Defined.

(** ** Keys that are not escaped *)

Lemma separator_not_quoted s : has_char "/" s = true -> quote s <> s.
Proof.
  intros S E. pose proof (quote_no_separator s) as Q. rewrite E in Q.
  congruence.
Qed.

(** The calls that go through the codec: the key segment of the path is the
    quoted target. *)
Lemma input_edge_paths_quoted (r : StrOrUrn) :
  call_outcome (RemoveInputEdge r)
  = inr [mkPatch ChartInfo_ASPECT_NAME OpRemove
           ("/inputEdges/" +:+ quote (str r)) empty_marker].
Proof. reflexivity. Qed.

(** C2: [add_inputs] and [add_tag] put the key into the path as it is.  A
    dataset under a path of an object store, and a tag with a slash in its
    name, end up with their separator unescaped, where the claim asks for
    the codec's [~1]; [add_input_edge] on the same dataset does escape it. *)
Theorem key_segments_left_unquoted :
  add_inputs 0%nat (Some [s3_dataset]) sample_world
  = (Ok 0%nat,
     append_patches 0%nat
       [mkPatch ChartInfo_ASPECT_NAME OpAdd
          "/inputs/urn:li:dataset:(urn:li:dataPlatform:s3,bucket/key,PROD)"
          (VStr s3_dataset)] sample_world)
  /\ "/inputs/" +:+ quote s3_dataset
     = "/inputs/urn:li:dataset:(urn:li:dataPlatform:s3,bucket~1key,PROD)"
  /\ add_tag 0%nat slash_tag sample_world
     = (Ok 0%nat,
        append_patches 0%nat
          [mkPatch GlobalTags_ASPECT_NAME OpAdd "/tags/urn:li:tag:team/growth"
             (VTag slash_tag)] sample_world)
  /\ "/tags/" +:+ quote (tag slash_tag) = "/tags/urn:li:tag:team~1growth"
  /\ add_input_edge 0%nat (IsRef (IsStr s3_dataset)) sample_world
     = (Ok 0%nat,
        append_patches 0%nat
          [mkPatch ChartInfo_ASPECT_NAME OpAdd
             "/inputEdges/urn:li:dataset:(urn:li:dataPlatform:s3,bucket~1key,PROD)"
             (VStr s3_dataset)] sample_world).
Proof. repeat split. Qed.

(** ** Edges handed to [add_input_edge] *)

(** The first half of [add_input_edge] does what its docstring says: an edge
    is taken as it is, and a reference becomes an edge with two stamps from
    the audit-timestamp collaborator. *)
Lemma input_urn_and_edge_cases (w : World) :
  (forall e, input_urn_and_edge (IsEdge e) w = (Ok (destinationUrn e, e), w))
  /\ (forall r,
        input_urn_and_edge (IsRef r) w
        = (Ok (str r,
               {| destinationUrn := str r;
                  created := Some {| time := clock w;
                                     actor := acting_identity w |};
                  lastModified := Some {| time := clock w;
                                          actor := acting_identity w |} |}),
           w)).
Proof. now split. Qed.

(** Of its input the call keeps the target's identifier and nothing else. *)
Lemma add_input_edge_only_target self i j w :
  is_chart_builder w self = true ->
  target_urn i = target_urn j ->
  add_input_edge self i w = add_input_edge self j w.
Proof.
  intros H T.
  change (call self (AddInputEdge i) w = call self (AddInputEdge j) w).
  rewrite !(call_spec _ _ _ H). cbn [call_outcome]. now rewrite T.
Qed.

(** C3: given an edge with the caller's audit stamps, [add_input_edge]
    appends an add at the quoted target whose value is the target's
    identifier alone: the edge and its stamps are in no operation, and the
    call cannot be told from the one on a stampless edge or on the bare
    identifier. *)
Theorem add_input_edge_appends_urn_only :
  add_input_edge 0%nat (IsEdge stamped_edge) sample_world
  = (Ok 0%nat,
     append_patches 0%nat
       [mkPatch ChartInfo_ASPECT_NAME OpAdd
          ("/inputEdges/" +:+ quote hive_dataset) (VStr hive_dataset)]
       sample_world)
  /\ add_input_edge 0%nat (IsEdge stamped_edge) sample_world
     = add_input_edge 0%nat (IsEdge bare_edge) sample_world
  /\ add_input_edge 0%nat (IsEdge stamped_edge) sample_world
     = add_input_edge 0%nat (IsRef (IsStr hive_dataset)) sample_world.
Proof. repeat split. Qed.

(** * Further properties of the builder *)

(** ** What a call touches *)

Lemma heap_append_patches_other self other ps w :
  other <> self ->
  heap (append_patches self ps w) !! other = heap w !! other.
Proof.
  intros N. unfold append_patches. destruct (heap w !! self); [|reflexivity].
  simpl. apply list_lookup_insert_ne. congruence.
Qed.

Lemma call_appends self c w r w' :
  is_chart_builder w self = true ->
  call self c w = (r, w') ->
  exists ps, w' = append_patches self ps w.
Proof.
  intros H E. rewrite (call_spec _ _ _ H) in E.
  destruct (call_outcome c) as [e|ps]; injection E as _ <-.
  - exists []. now rewrite append_patches_nil.
  - now exists ps.
Qed.

(** X1: a mutation call on a chart builder is append-only and local.
    Whether it returns or raises, the operations accumulated before the call
    are still there, in front and unchanged; no other builder of the store
    is touched; and the entity identifier, the system metadata, the audit
    header and the helpers of the builder itself stay what they were. *)
Theorem call_append_only (self : loc) (c : Call) (w : World)
    (H : is_chart_builder w self = true) :
  forall r w', call self c w = (r, w') ->
    (exists ps, patches_of w' self = (patches_of w self ++ ps)%list)
    /\ (forall other, other <> self -> heap w' !! other = heap w !! other)
    /\ (exists b b',
          heap w !! self = Some b /\ heap w' !! self = Some b'
          /\ mpp_urn (base b') = mpp_urn (base b)
          /\ system_metadata (base b') = system_metadata (base b)
          /\ audit_header (base b') = audit_header (base b)
          /\ custom_properties_patch_helper b'
             = custom_properties_patch_helper b
          /\ ownership_patch_helper b' = ownership_patch_helper b).
Proof.
  intros r w' E. destruct (call_appends _ _ _ _ _ H E) as [ps ->].
  destruct (is_chart_builder_live _ _ H) as (b & B & _).
  split; [|split].
  - exists ps. apply patches_of_append_patches. now exists b.
  - intros other N. now apply heap_append_patches_other.
  - exists b, (set_patches (patches (base b) ++ ps)%list b).
    split; [exact B|]. split; [now apply heap_append_patches|].
    now repeat split.
Qed.

Lemma call_append_only_witness :
  is_chart_builder sample_world 0%nat = true
  /\ exists ps,
       patches_of
         (snd (call 0%nat (SetTitle "Revenue") sample_world)) 0%nat
       = (patches_of sample_world 0%nat ++ ps)%list.
Proof.
  split; [reflexivity|].
  exact (proj1 (call_append_only 0%nat (SetTitle "Revenue") sample_world
                  eq_refl _ _ eq_refl)).
Defined.

(** ** Lists of inputs *)

(** X2: [add_inputs] appends one add per identifier of the list, in the
    order of the list and with repeated identifiers repeated, each at
    [/inputs/<urn>] with the identifier as its value; [None] and the empty
    list append nothing.  The accumulator grows by the length of the list. *)
Theorem add_inputs_one_per_urn (self : loc) (input_urns : option (list string))
    (w : World) (H : is_chart_builder w self = true) :
  add_inputs self input_urns w
  = (Ok self, append_patches self (map input_patch (default [] input_urns)) w)
  /\ length (patches_of (snd (add_inputs self input_urns w)) self)
     = (length (patches_of w self) + length (default [] input_urns))%nat.
Proof.
  assert (E : add_inputs self input_urns w
              = (Ok self,
                 append_patches self
                   (map input_patch (default [] input_urns)) w))
    by exact (call_returns self (AddInputs input_urns) w _ H eq_refl).
  split; [exact E|]. rewrite E. cbn [snd].
  rewrite patches_of_append_patches by auto with chart.
  now rewrite length_app, length_map.
Qed.

Lemma add_inputs_one_per_urn_witness :
  is_chart_builder sample_world 0%nat = true
  /\ patches_of
       (snd (add_inputs 0%nat (Some [hive_dataset; hive_dataset]) sample_world))
       0%nat
     = [input_patch hive_dataset; input_patch hive_dataset].
Proof.
  split; [reflexivity|].
  rewrite (proj1 (add_inputs_one_per_urn 0%nat
                    (Some [hive_dataset; hive_dataset]) sample_world eq_refl)).
  reflexivity.
Defined.

(** X3: two [add_inputs] calls in a row do what one call on the
    concatenated list does. *)
Theorem add_inputs_concat (self : loc) (xs ys : list string) (w : World)
    (H : is_chart_builder w self = true) :
  (b <- add_inputs self (Some xs) ;; add_inputs b (Some ys)) w
  = add_inputs self (Some (xs ++ ys)%list) w.
Proof.
  assert (E1 : add_inputs self (Some xs) w
               = (Ok self, append_patches self (map input_patch xs) w))
    by exact (call_returns self (AddInputs (Some xs)) w _ H eq_refl).
  pose proof (is_chart_builder_append_patches self
                (map input_patch xs) w H) as H'.
  assert (E2 : add_inputs self (Some ys)
                 (append_patches self (map input_patch xs) w)
               = (Ok self,
                  append_patches self (map input_patch ys)
                    (append_patches self (map input_patch xs) w)))
    by exact (call_returns self (AddInputs (Some ys)) _ _ H' eq_refl).
  assert (E3 : add_inputs self (Some (xs ++ ys)%list) w
               = (Ok self,
                  append_patches self (map input_patch (xs ++ ys)%list) w))
    by exact (call_returns self (AddInputs (Some (xs ++ ys)%list)) w _ H
                eq_refl).
  rewrite (bind_Ok _ _ _ _ _ E1), E2, E3.
  now rewrite append_patches_app, map_app.
Qed.

Lemma add_inputs_concat_witness :
  is_chart_builder sample_world 0%nat = true
  /\ (b <- add_inputs 0%nat (Some [hive_dataset]) ;;
      add_inputs b (Some [s3_dataset])) sample_world
     = add_inputs 0%nat (Some [hive_dataset; s3_dataset]) sample_world.
Proof.
  split; [reflexivity|].
  exact (add_inputs_concat 0%nat [hive_dataset] [s3_dataset] sample_world
           eq_refl).
Defined.

(** ** The shape of the operations *)

Ltac shape :=
  unfold chart_patch_shape, field_aspect; cbn; rewrite ?prefix_append;
  repeat split; easy.

Ltac one_shape := constructor; [shape | constructor].

(** X4: every operation appended by a call whose body builds the operation
    itself (all but the owner and custom-property calls, which hand over to
    a helper) is an add or a remove, never a replace; its path starts at the
    root; a remove carries the empty marker; and it is filed under the
    aspect of its field: tags under the tags aspect, glossary terms under
    the terms aspect, every other field under chart information. *)
Theorem direct_calls_shape (self : loc) (c : Call) (w : World)
    (H : is_chart_builder w self = true) (D : delegated c = false) :
  forall r w', call self c w = (r, w') ->
    exists ps,
      patches_of w' self = (patches_of w self ++ ps)%list
      /\ Forall chart_patch_shape ps.
Proof.
  intros r w' E. rewrite (call_spec _ _ _ H) in E.
  assert (L : is_Some (heap w !! self)) by auto with chart.
  assert (S : match call_outcome c with
              | inl _ => True
              | inr ps => Forall chart_patch_shape ps
              end).
  { destruct c; try discriminate D; cbn [call_outcome].
    - destruct (Urn.create_from_string (target_urn input)) as [u|]; [|exact I].
      destruct (String.eqb (Urn.get_type u) "dataset"); [|exact I].
      one_shape.
    - one_shape.
    - one_shape.
    - one_shape.
    - destruct (tag_key t); [one_shape | exact I].
    - one_shape.
    - one_shape.
    - one_shape.
    - destruct (String.eqb title ""); [exact I | one_shape].
    - destruct (String.eqb description "");
        [exact I | one_shape].
    - destruct last_refreshed as [z|]; [|constructor].
      destruct (Z.eqb z 0); [constructor | one_shape].
    - destruct last_modified; [one_shape | constructor].
    - destruct external_url as [s|]; [|constructor]. cbn.
      destruct (String.eqb s ""); [constructor | one_shape].
    - destruct dashboard_url as [s|]; [|constructor]. cbn.
      destruct (String.eqb s ""); [constructor | one_shape].
    - destruct type0 as [s|]; [|constructor]. cbn.
      destruct (String.eqb s ""); [constructor | one_shape].
    - destruct access as [s|]; [|constructor]. cbn.
      destruct (String.eqb s ""); [constructor | one_shape].
    - induction (default [] input_urns) as [|u us IH]; [constructor|].
      cbn [map]. constructor; [shape | exact IH]. }
  destruct (call_outcome c) as [e|ps]; injection E as _ <-.
  - exists []. split; [now rewrite app_nil_r | constructor].
  - exists ps. split; [now apply patches_of_append_patches | exact S].
Qed.

Lemma direct_calls_shape_witness :
  is_chart_builder sample_world 0%nat = true
  /\ delegated (RemoveTag (IsStr "pii")) = false
  /\ exists ps,
       patches_of (snd (call 0%nat (RemoveTag (IsStr "pii")) sample_world))
         0%nat
       = (patches_of sample_world 0%nat ++ ps)%list
       /\ Forall chart_patch_shape ps.
Proof.
  split; [reflexivity|]. split; [reflexivity|].
  exact (direct_calls_shape 0%nat (RemoveTag (IsStr "pii")) sample_world
           eq_refl eq_refl _ _ eq_refl).
Defined.

(** X5: a call that neither hands over to a helper nor has its argument
    checked (everything but the owner and custom-property calls,
    [set_title], [set_description], [add_input_edge] and [remove_tag] on a
    bare name) returns the builder on every argument: it never raises. *)
Theorem unchecked_calls_return (self : loc) (c : Call) (w : World)
    (H : is_chart_builder w self = true)
    (D : delegated c = false) (G : checks_argument c = false) :
  exists w', call self c w = (Ok self, w').
Proof.
  rewrite (call_spec _ _ _ H).
  destruct c; try discriminate D; try discriminate G; cbn [call_outcome];
    try (now eexists).
  destruct t as [s|u]; cbn [tag_key]; [|now eexists].
  cbn [checks_argument] in G. apply negb_false_iff in G. rewrite G.
  now eexists.
Qed.

Lemma unchecked_calls_return_witness :
  is_chart_builder sample_world 0%nat = true
  /\ delegated (AddInputs (Some ["not a urn"; ""])) = false
  /\ checks_argument (AddInputs (Some ["not a urn"; ""])) = false
  /\ exists w',
       call 0%nat (AddInputs (Some ["not a urn"; ""])) sample_world
       = (Ok 0%nat, w').
Proof.
  split; [reflexivity|]. split; [reflexivity|]. split; [reflexivity|].
  exact (unchecked_calls_return 0%nat (AddInputs (Some ["not a urn"; ""]))
           sample_world eq_refl eq_refl eq_refl).
Defined.

(** ** Tags and glossary terms *)

Lemma append_cancel p a b : p +:+ a = p +:+ b -> a = b.
Proof.
  induction p as [|c p IH]; [easy|]. intros E. injection E as E. now apply IH.
Qed.

Lemma tag_path_differs t :
  "/tags/" +:+ t <> "/tags/" +:+ ("urn:li:tag:" +:+ t).
Proof.
  intros E. apply (f_equal String.length) in E. simpl in E. lia.
Qed.

Lemma term_path_differs t :
  "/terms/" +:+ t <> "/terms/" +:+ ("urn:li:glossaryTerm:" +:+ t).
Proof.
  intros E. apply (f_equal String.length) in E. simpl in E. lia.
Qed.

(** X6: [add_tag] takes the tag of its argument as the key as it is, while
    [remove_tag] hands a bare name to the tag constructor.  So adding a tag
    and removing the same string address the same path when the string
    starts with [urn:li:tag:]; for a string without the prefix the remove
    raises or goes to another path than the add.  For [add_term] and
    [remove_term], which completes a bare name itself, the two paths are
    the same exactly when the string starts with [urn:li:glossaryTerm:]. *)
Theorem add_remove_same_path_iff_prefixed (self : loc) (k : string) (w : World)
    (H : is_chart_builder w self = true) :
  (exists pa,
      add_tag self {| tag := k |} w = (Ok self, append_patches self [pa] w)
      /\ (String.prefix "urn:li:tag:" k = true ->
          exists pr,
            remove_tag self (IsStr k) w
            = (Ok self, append_patches self [pr] w)
            /\ path pr = path pa)
      /\ (String.prefix "urn:li:tag:" k = false ->
          remove_tag self (IsStr k) w = (Raise InvalidIdentifierError, w)
          \/ exists pr,
               remove_tag self (IsStr k) w
               = (Ok self, append_patches self [pr] w)
               /\ path pr <> path pa))
  /\ (exists pa pr,
        add_term self {| urn := k |} w = (Ok self, append_patches self [pa] w)
        /\ remove_term self (IsStr k) w = (Ok self, append_patches self [pr] w)
        /\ (path pa = path pr
            <-> String.prefix "urn:li:glossaryTerm:" k = true)).
Proof.
  split.
  - eexists.
    split; [exact (call_returns self (AddTag {| tag := k |}) w _ H eq_refl)|].
    split.
    + intros P.
      exists (mkPatch GlobalTags_ASPECT_NAME OpRemove ("/tags/" +:+ k)
                empty_marker).
      split; [|reflexivity].
      apply (call_returns self (RemoveTag (IsStr k)) w _ H).
      cbn [call_outcome tag_key]. now rewrite P.
    + intros P. destruct (TagUrn.create_from_id k) as [u|] eqn:C.
      * right. eexists. split.
        -- apply (call_returns self (RemoveTag (IsStr k)) w _ H).
           cbn [call_outcome tag_key]. rewrite P, C. reflexivity.
        -- cbn [path mkPatch tag]. rewrite (create_from_id_tag _ _ C).
           intros E. apply append_cancel in E.
           rewrite <- E in P. now rewrite prefix_append in P.
      * left. apply (call_raises self (RemoveTag (IsStr k)) w _ H).
        cbn [call_outcome tag_key]. now rewrite P, C.
  - eexists _, _.
    split; [exact (call_returns self (AddTerm {| urn := k |}) w _ H eq_refl)|].
    split; [exact (call_returns self (RemoveTerm (IsStr k)) w _ H eq_refl)|].
    cbn [path mkPatch urn term_key].
    destruct (String.prefix "urn:li:glossaryTerm:" k); split; try easy.
    intros E. now destruct (term_path_differs k).
Qed.

Lemma add_remove_same_path_iff_prefixed_witness :
  is_chart_builder sample_world 0%nat = true
  /\ String.prefix "urn:li:tag:" "pii" = false
  /\ exists pa,
       add_tag 0%nat {| tag := "pii" |} sample_world
       = (Ok 0%nat, append_patches 0%nat [pa] sample_world)
       /\ (remove_tag 0%nat (IsStr "pii") sample_world
           = (Raise InvalidIdentifierError, sample_world)
           \/ exists pr,
                remove_tag 0%nat (IsStr "pii") sample_world
                = (Ok 0%nat, append_patches 0%nat [pr] sample_world)
                /\ path pr <> path pa).
Proof.
  split; [reflexivity|]. split; [reflexivity|].
  destruct (proj1 (add_remove_same_path_iff_prefixed 0%nat "pii" sample_world
                     eq_refl)) as (pa & A & _ & N).
  exists pa. split; [exact A | exact (N eq_refl)].
Defined.

(** X7: [remove_tag] on a string either raises and appends nothing, or
    removes at a key that starts with [urn:li:tag:], and then the call on
    that key is the call on the string: completing is idempotent.
    [remove_term] on a string always returns, with a key that starts with
    [urn:li:glossaryTerm:], and is idempotent in the same way. *)
Theorem remove_key_completed (self : loc) (s : string) (w : World)
    (H : is_chart_builder w self = true) :
  (remove_tag self (IsStr s) w = (Raise InvalidIdentifierError, w)
   \/ exists k,
        remove_tag self (IsStr s) w
        = (Ok self,
           append_patches self
             [mkPatch GlobalTags_ASPECT_NAME OpRemove ("/tags/" +:+ k)
                empty_marker] w)
        /\ String.prefix "urn:li:tag:" k = true
        /\ remove_tag self (IsStr k) w = remove_tag self (IsStr s) w)
  /\ (exists k,
        remove_term self (IsStr s) w
        = (Ok self,
           append_patches self
             [mkPatch GlossaryTerms_ASPECT_NAME OpRemove ("/terms/" +:+ k)
                empty_marker] w)
        /\ String.prefix "urn:li:glossaryTerm:" k = true
        /\ remove_term self (IsStr k) w = remove_term self (IsStr s) w).
Proof.
  split.
  - destruct (tag_key (IsStr s)) as [k|] eqn:K.
    + right. exists k.
      assert (R : remove_tag self (IsStr s) w
                  = (Ok self,
                     append_patches self
                       [mkPatch GlobalTags_ASPECT_NAME OpRemove
                          ("/tags/" +:+ k) empty_marker] w)).
      { apply (call_returns self (RemoveTag (IsStr s)) w _ H).
        cbn [call_outcome]. now rewrite K. }
      assert (P : String.prefix "urn:li:tag:" k = true).
      { cbn [tag_key] in K.
        destruct (String.prefix "urn:li:tag:" s) eqn:E.
        - now injection K as <-.
        - destruct (TagUrn.create_from_id s) as [u|] eqn:C; [|discriminate K].
          cbn [option_map] in K. injection K as <-.
          rewrite (create_from_id_tag _ _ C). apply prefix_append. }
      split; [exact R|]. split; [exact P|].
      rewrite R. apply (call_returns self (RemoveTag (IsStr k)) w _ H).
      cbn [call_outcome tag_key]. now rewrite P.
    + left. apply (call_raises self (RemoveTag (IsStr s)) w _ H).
      cbn [call_outcome]. now rewrite K.
  - exists (term_key (IsStr s)).
    split; [exact (call_returns self (RemoveTerm (IsStr s)) w _ H eq_refl)|].
    assert (P : String.prefix "urn:li:glossaryTerm:" (term_key (IsStr s))
                = true).
    { cbn [term_key]. destruct (String.prefix "urn:li:glossaryTerm:" s) eqn:E;
        [exact E | apply prefix_append]. }
    split; [exact P|].
    change (call self (RemoveTerm (IsStr (term_key (IsStr s)))) w
            = call self (RemoveTerm (IsStr s)) w).
    rewrite !(call_spec _ _ _ H). cbn [call_outcome].
    cbn [term_key] in *. now rewrite P.
Qed.

Lemma remove_key_completed_witness :
  is_chart_builder sample_world 0%nat = true
  /\ (remove_tag 0%nat (IsStr "a,b") sample_world
      = (Raise InvalidIdentifierError, sample_world)
      \/ exists k,
           remove_tag 0%nat (IsStr "a,b") sample_world
           = (Ok 0%nat,
              append_patches 0%nat
                [mkPatch GlobalTags_ASPECT_NAME OpRemove ("/tags/" +:+ k)
                   empty_marker] sample_world)
           /\ String.prefix "urn:li:tag:" k = true
           /\ remove_tag 0%nat (IsStr k) sample_world
              = remove_tag 0%nat (IsStr "a,b") sample_world)
  /\ exists k,
       remove_term 0%nat (IsStr "kpi") sample_world
       = (Ok 0%nat,
          append_patches 0%nat
            [mkPatch GlossaryTerms_ASPECT_NAME OpRemove ("/terms/" +:+ k)
               empty_marker] sample_world)
       /\ String.prefix "urn:li:glossaryTerm:" k = true
       /\ remove_term 0%nat (IsStr k) sample_world
          = remove_term 0%nat (IsStr "kpi") sample_world.
Proof.
  split; [reflexivity|]. split.
  - exact (proj1 (remove_key_completed 0%nat "a,b" sample_world eq_refl)).
  - exact (proj2 (remove_key_completed 0%nat "kpi" sample_world eq_refl)).
Defined.

(** ** Input edges *)

(** X8: [add_input_edge] sees of its argument the target's identifier only:
    in every world, on an edge, an identifier object or a string it does
    what it does on the bare string of the target. *)
Theorem add_input_edge_as_bare_target (self : loc) (input : EdgeOrRef)
    (w : World) :
  add_input_edge self input w
  = add_input_edge self (IsRef (IsStr (target_urn input))) w.
Proof.
  unfold add_input_edge.
  destruct input as [e|r]; unfold bind; cbn;
    destruct (Urn.create_from_string _) as [u|]; try reflexivity;
    destruct (String.eqb (Urn.get_type u) "dataset"); reflexivity.
Qed.

(** X9: adding an input edge and then removing the same target address one
    path: when the target is a dataset identifier the two calls leave an add
    and a remove at the same quoted path, the add with the identifier and
    the remove with the empty marker. *)
Theorem add_then_remove_input_edge (self : loc) (input : EdgeOrRef)
    (w : World) (u : Urn.t)
    (H : is_chart_builder w self = true)
    (P : Urn.create_from_string (target_urn input) = Some u)
    (K : String.eqb (Urn.get_type u) "dataset" = true) :
  (b <- add_input_edge self input ;;
   remove_input_edge b (IsStr (target_urn input))) w
  = (Ok self,
     append_patches self
       [mkPatch ChartInfo_ASPECT_NAME OpAdd
          ("/inputEdges/" +:+ quote (target_urn input))
          (VStr (target_urn input));
        mkPatch ChartInfo_ASPECT_NAME OpRemove
          ("/inputEdges/" +:+ quote (target_urn input)) empty_marker] w).
Proof.
  assert (A : call_outcome (AddInputEdge input)
              = inr [mkPatch ChartInfo_ASPECT_NAME OpAdd
                       ("/inputEdges/" +:+ quote (target_urn input))
                       (VStr (target_urn input))])
    by (cbn [call_outcome]; now rewrite P, K).
  erewrite bind_Ok by exact (call_returns self _ w _ H A).
  pose proof (is_chart_builder_append_patches self
                [mkPatch ChartInfo_ASPECT_NAME OpAdd
                   ("/inputEdges/" +:+ quote (target_urn input))
                   (VStr (target_urn input))] w H) as H'.
  etransitivity;
    [exact (call_returns self (RemoveInputEdge (IsStr (target_urn input)))
              _ _ H' eq_refl)|].
  now rewrite append_patches_app.
Qed.

Lemma add_then_remove_input_edge_witness :
  is_chart_builder sample_world 0%nat = true
  /\ (b <- add_input_edge 0%nat (IsEdge stamped_edge) ;;
      remove_input_edge b (IsStr hive_dataset)) sample_world
     = (Ok 0%nat,
        append_patches 0%nat
          [mkPatch ChartInfo_ASPECT_NAME OpAdd
             ("/inputEdges/" +:+ quote hive_dataset) (VStr hive_dataset);
           mkPatch ChartInfo_ASPECT_NAME OpRemove
             ("/inputEdges/" +:+ quote hive_dataset) empty_marker]
          sample_world).
Proof.
  split; [reflexivity|].
  exact (add_then_remove_input_edge 0%nat (IsEdge stamped_edge) sample_world
           (Urn.mk "dataset" "(urn:li:dataPlatform:hive,db.orders,PROD)")
           eq_refl eq_refl eq_refl).
Defined.

(** X10: [set_input_edges] does not look at the kind of its targets: a list
    with an edge that [add_input_edge] refuses for its kind is accepted, and
    goes into the one appended operation whole, the edges with their audit
    stamps. *)
Theorem set_input_edges_unchecked (self : loc) (e : Edge)
    (inputs : list Edge) (w : World) (u : Urn.t)
    (H : is_chart_builder w self = true)
    (I : In e inputs)
    (P : Urn.create_from_string (destinationUrn e) = Some u)
    (K : String.eqb (Urn.get_type u) "dataset" = false) :
  add_input_edge self (IsEdge e) w
  = (Raise (InvalidUrnTypeError "add_dataset"), w)
  /\ set_input_edges self inputs w
     = (Ok self,
        append_patches self
          [mkPatch ChartInfo_ASPECT_NAME OpAdd "/inputEdges" (VEdges inputs)]
          w).
Proof.
  split.
  - apply (call_raises self (AddInputEdge (IsEdge e)) w _ H).
    cbn [call_outcome target_urn]. now rewrite P, K.
  - exact (call_returns self (SetInputEdges inputs) w _ H eq_refl).
Qed.

Lemma set_input_edges_unchecked_witness :
  is_chart_builder sample_world 0%nat = true
  /\ In user_edge [stamped_edge; user_edge]
  /\ add_input_edge 0%nat (IsEdge user_edge) sample_world
     = (Raise (InvalidUrnTypeError "add_dataset"), sample_world)
  /\ set_input_edges 0%nat [stamped_edge; user_edge] sample_world
     = (Ok 0%nat,
        append_patches 0%nat
          [mkPatch ChartInfo_ASPECT_NAME OpAdd "/inputEdges"
             (VEdges [stamped_edge; user_edge])] sample_world).
Proof.
  split; [reflexivity|].
  assert (I : In user_edge [stamped_edge; user_edge])
    by (simpl; right; left; reflexivity).
  split; [exact I|].
  exact (set_input_edges_unchecked 0%nat user_edge [stamped_edge; user_edge]
           sample_world (Urn.mk "corpuser" "bob") eq_refl I eq_refl eq_refl).
Defined.

(** ** Fluent chains *)

Lemma chain_app self cs1 cs2 w ps :
  is_chart_builder w self = true ->
  chain_patches cs1 = Some ps ->
  chain self (cs1 ++ cs2)%list w = chain self cs2 (append_patches self ps w).
Proof.
  revert w ps. induction cs1 as [|c cs1 IH]; intros w ps H S.
  - injection S as <-. now rewrite append_patches_nil.
  - cbn [chain_patches] in S. cbn [app chain].
    destruct (call_outcome c) as [e|qs] eqn:O; [discriminate S|].
    destruct (chain_patches cs1) as [rs|]; [|discriminate S].
    injection S as <-.
    rewrite (bind_Ok _ _ _ _ _ (call_returns self c w _ H O)).
    rewrite (IH _ rs (is_chart_builder_append_patches self qs w H) eq_refl).
    now rewrite append_patches_app.
Qed.

(** X11: a fluent chain of calls none of which raises returns the builder
    it started from, and leaves in the accumulator the operations of its
    calls in the order of the calls, after those that were there. *)
Theorem chain_in_call_order (self : loc) (cs : list Call) (ps : list Patch)
    (w : World)
    (H : is_chart_builder w self = true)
    (S : chain_patches cs = Some ps) :
  chain self cs w = (Ok self, append_patches self ps w)
  /\ patches_of (append_patches self ps w) self
     = (patches_of w self ++ ps)%list.
Proof.
  split.
  - rewrite <- (app_nil_r cs). now rewrite (chain_app self cs [] w ps H S).
  - apply patches_of_append_patches. auto with chart.
Qed.

Lemma chain_in_call_order_witness :
  is_chart_builder sample_world 0%nat = true
  /\ chain 0%nat
       [SetTitle "Revenue"; AddTag {| tag := "urn:li:tag:pii" |};
        SetType (Some "BAR"); SetTitle "Revenue, net"] sample_world
     = (Ok 0%nat,
        append_patches 0%nat
          [mkPatch "chartInfo" OpAdd "/title" (VStr "Revenue");
           mkPatch "globalTags" OpAdd "/tags/urn:li:tag:pii"
             (VTag {| tag := "urn:li:tag:pii" |});
           mkPatch "chartInfo" OpAdd "/type" (VStr "BAR");
           mkPatch "chartInfo" OpAdd "/title" (VStr "Revenue, net")]
          sample_world).
Proof.
  split; [reflexivity|].
  exact (proj1 (chain_in_call_order 0%nat
                  [SetTitle "Revenue"; AddTag {| tag := "urn:li:tag:pii" |};
                   SetType (Some "BAR"); SetTitle "Revenue, net"]
                  _ sample_world eq_refl eq_refl)).
Defined.

(** X12: when a call of a fluent chain raises, the chain raises that error
    and the calls after it do not run; what the calls before it appended
    stays in the accumulator, there is no rollback. *)
Theorem chain_stops_at_failure (self : loc) (cs1 cs2 : list Call) (c : Call)
    (ps : list Patch) (e : Error) (w : World)
    (H : is_chart_builder w self = true)
    (S : chain_patches cs1 = Some ps)
    (F : call_outcome c = inl e) :
  chain self (cs1 ++ c :: cs2)%list w = (Raise e, append_patches self ps w).
Proof.
  rewrite (chain_app self cs1 (c :: cs2) w ps H S). cbn [chain].
  apply bind_Raise.
  exact (call_raises self c _ e (is_chart_builder_append_patches self ps w H) F).
Qed.

Lemma chain_stops_at_failure_witness :
  is_chart_builder sample_world 0%nat = true
  /\ chain 0%nat
       [SetTitle "Revenue"; SetDescription ""; SetType (Some "BAR")]
       sample_world
     = (Raise (AssertionError "DashboardInfo description should not be None"),
        append_patches 0%nat
          [mkPatch "chartInfo" OpAdd "/title" (VStr "Revenue")] sample_world).
Proof.
  split; [reflexivity|].
  exact (chain_stops_at_failure 0%nat [SetTitle "Revenue"]
           [SetType (Some "BAR")] (SetDescription "") _ _ sample_world
           eq_refl eq_refl eq_refl).
Defined.

(** ** The constructor *)

(** X13: the constructor, given a chart identifier, returns a reference
    that pointed to no object before; the new object is a chart builder
    whose two helpers point back to it, with the identifier, the system
    metadata and the audit header it was given and an empty accumulator;
    the objects that were there are what they were. *)
Theorem chart_init_fresh (urn : string) (sm : option SystemMetadataClass)
    (ah : option KafkaAuditHeaderClass) (w : World) (u : Urn.t)
    (P : Urn.create_from_string urn = Some u)
    (K : String.eqb (Urn.get_type u) chart.ENTITY_TYPE = true) :
  exists self w' b,
    chart.__init__ urn sm ah w = (Ok self, w')
    /\ heap w !! self = None
    /\ heap w' !! self = Some b
    /\ cp_parent (custom_properties_patch_helper b) = self
    /\ own_parent (ownership_patch_helper b) = self
    /\ is_chart_builder w' self = true
    /\ mpp_urn (base b) = urn
    /\ system_metadata (base b) = sm
    /\ audit_header (base b) = ah
    /\ patches (base b) = []
    /\ (forall other b0, heap w !! other = Some b0 ->
                         heap w' !! other = Some b0).
Proof.
  exists (length (heap w)),
    (set_heap
       (heap w ++ [fresh_builder (length (heap w)) urn sm ah])%list w),
    (fresh_builder (length (heap w)) urn sm ah).
  split; [exact (chart_init_ok urn sm ah w u P K)|].
  split; [now apply lookup_ge_None|].
  split; [apply fresh_builder_live|].
  split; [reflexivity|]. split; [reflexivity|].
  split; [apply fresh_builder_is_chart_builder|].
  repeat (split; [reflexivity|]).
  intros other b0 E. simpl. now apply lookup_app_l_Some.
Qed.

Lemma chart_init_fresh_witness :
  exists self w' b,
    chart.__init__ "urn:li:chart:(looker,dash.7)" (Some "run-1") None
      sample_world = (Ok self, w')
    /\ heap sample_world !! self = None
    /\ heap w' !! self = Some b
    /\ patches (base b) = []
    /\ heap w' !! 0%nat = heap sample_world !! 0%nat.
Proof.
  destruct (chart_init_fresh "urn:li:chart:(looker,dash.7)" (Some "run-1") None
              sample_world (Urn.mk "chart" "(looker,dash.7)") eq_refl eq_refl)
    as (self & w' & b & E & F & L & _ & _ & _ & _ & _ & _ & N & O).
  exists self, w', b. repeat split; try assumption.
  exact (O 0%nat _ eq_refl).
Defined.
